(** * score_wise: per-delivery statistics of the scoring components

    A shallow embedding of the statistics code that the React components of
    score_wise run over the ball ledger of a match:

    - [CompactPlayerStats.calculateBatsmanStats] / [calculateBowlerStats]
      (src/components/CompactPlayerStats.tsx),
    - [DetailedScorecardModal.calculateBattingStats] / [calculateBowlingStats]
      (second document of the same file),
    - [LiveStatsBar.calculateBatsmanStats] / [calculateBowlerStats],
    - [LiveScoreboard.calculateBatsmanStats],
    - [GroupDashboard.calculatePlayerStats],
    - [ScoreDisplay.formatOvers] / [calculatePartnership].

    JavaScript numbers that hold run totals are integers ([Z]); the results of
    [Array.prototype.filter(...).length] are naturals; quotients that the
    source computes in double precision are kept as exact rationals ([Q]). *)

From Stdlib Require Import ZArith String DecimalString List Bool Lia QArith Qround.
From Stdlib Require Import Sorted Permutation.
Import ListNotations.

(** ** The data model of [types/cricket] *)

Module Cricket.

Record Player : Type := mkPlayer {
  id : string;
  name : string
}.

(** Modelled from the spec: the declaration of [WicketType], imported by the
    components from [types/cricket], is missing.  The spec
    gives the closed set of dismissal kinds {bowled, caught, lbw, run-out,
    stumped, hit-wicket, retired}; the components compare the field with the
    string literals ['bowled'], ['caught'], ['lbw'], ['run_out'] and
    ['stumped']. *)
Inductive WicketType : Type :=
| bowled | caught | lbw | run_out | stumped | hit_wicket | retired.

Definition WicketType_eqb (x y : WicketType) : bool :=
  match x, y with
  | bowled, bowled | caught, caught | lbw, lbw | run_out, run_out
  | stumped, stumped | hit_wicket, hit_wicket | retired, retired => true
  | _, _ => false
  end.

(** One delivery, with the fields that the functions below read.  [innings]
    and [wicketType] are optional in the source ([!ball.innings],
    [wicketBall.wicketType || 'out']). *)
Record Ball : Type := mkBall {
  innings : option Z;
  striker : Player;
  bowler : Player;
  runs : Z;
  isWide : bool;
  isNoBall : bool;
  isBye : bool;
  isLegBye : bool;
  isWicket : bool;
  wicketType : option WicketType
}.

Record Team : Type := mkTeam {
  players : list Player
}.

Record Match : Type := mkMatch {
  team1 : Team;
  team2 : Team;
  balls : list Ball;
  currentStriker : option Player;
  currentNonStriker : option Player;
  currentBowler : option Player;
  isSecondInnings : bool
}.

(** [a.id === b.id] *)
Definition sameId (a b : Player) : bool := String.eqb (id a) (id b).

(** [b.wicketType !== 'run_out']: an absent kind is not ['run_out']. *)
Definition notRunOut (b : Ball) : bool :=
  match wicketType b with
  | Some k => negb (WicketType_eqb k run_out)
  | None => true
  end.

(** [!b.isWide && !b.isNoBall] *)
Definition legal (b : Ball) : bool := negb (isWide b) && negb (isNoBall b).

(** [!ball.isWide && !ball.isNoBall && !ball.isBye && !ball.isLegBye] *)
Definition plain (b : Ball) : bool :=
  negb (isWide b) && negb (isNoBall b) && negb (isBye b) && negb (isLegBye b).

(** [arr.reduce((sum, ball) => sum + ball.runs, 0)] *)
Definition sumRuns (l : list Ball) : Z :=
  fold_left (fun sum ball => (sum + runs ball)%Z) l 0%Z.

(** A delivery with the further optional fields that only the partnership
    list of the scorecard reads ([ball.nonStriker?.name],
    [ball.nextBatsman?.name]). *)
Record Delivery : Type := mkDelivery {
  ball : Ball;
  nonStriker : option Player;
  nextBatsman : option Player
}.

End Cricket.

Import Cricket.

(** ** The fragments of the language runtime that the components rely on *)

Module Js.

(** The number denoted by [x.toFixed(d)]: the nearest multiple of [10^-d],
    the larger in magnitude of two equally near ones; the sign is split off
    first, as [Number.prototype.toFixed] does. *)
Definition toFixedAbs (d : nat) (x : Q) : Q :=
  let scale := inject_Z (10 ^ Z.of_nat d) in
  (inject_Z (Qfloor (x * scale + (1 # 2))) / scale)%Q.

Definition toFixed (d : nat) (x : Q) : Q :=
  if Qle_bool 0 x then toFixedAbs d x else (- toFixedAbs d (- x))%Q.

(** [n || 1] on a count *)
Definition orOneNat (n : nat) : nat := match n with O => 1%nat | _ => n end.

(** [x || 1] on a quotient *)
Definition orOneQ (x : Q) : Q := if Qeq_bool x 0 then 1%Q else x.

(** Template-literal rendering of an integer. *)
Definition showZ (z : Z) : string :=
  NilZero.string_of_int (Z.to_int z).

(** Runtime errors of the language that the components can raise. *)
Inductive Error : Type :=
| ReferenceError (identifier : string).

Definition result (A : Type) : Type := (Error + A)%type.

Definition ret {A} (a : A) : result A := inr a.
Definition throw {A} (e : Error) : result A := inl e.
Definition bind {A B} (c : result A) (k : A -> result B) : result B :=
  match c with
  | inl e => inl e
  | inr a => k a
  end.

(** [arr.filter(f)] for a callback that may throw: the callback runs on the
    elements in order and the first exception aborts the whole call. *)
Fixpoint filterE {A} (f : A -> result bool) (l : list A) : result (list A) :=
  match l with
  | [] => ret []
  | x :: t =>
      bind (f x) (fun keep =>
      bind (filterE f t) (fun r =>
      ret (if keep then x :: r else r)))
  end.

(** Identifier resolution in the scope chain of a callback; an identifier
    bound nowhere raises [ReferenceError]. *)
Fixpoint resolve {A} (scope : list (string * A)) (x : string) : result A :=
  match scope with
  | [] => throw (ReferenceError x)
  | (y, v) :: rest => if String.eqb x y then ret v else resolve rest x
  end.

(** [arr.sort(compare)].  The sort is stable and [compare a b <= 0] keeps [a]
    before [b]; for a comparator that orders the elements consistently the
    result is the stable arrangement, built here by insertion from the
    right. *)
Fixpoint insertBy {A} (compare : A -> A -> Z) (x : A) (l : list A) : list A :=
  match l with
  | [] => [x]
  | y :: t =>
      if (compare x y <=? 0)%Z then x :: y :: t else y :: insertBy compare x t
  end.

Definition sort {A} (compare : A -> A -> Z) (l : list A) : list A :=
  fold_right (insertBy compare) [] l.

(** [names.filter(Boolean)] on optional strings: [undefined] and the empty
    string are falsy. *)
Fixpoint filterBoolean (l : list (option string)) : list string :=
  match l with
  | [] => []
  | None :: t => filterBoolean t
  | Some x :: t => if String.eqb x "" then filterBoolean t else x :: filterBoolean t
  end.

End Js.

(** ** CompactPlayerStats.tsx, component [CompactPlayerStats] *)

Module CompactPlayerStats.

(** The returned objects.  [strikeRate] and [economy] hold the number that
    the [toFixed] string denotes; [runsGiven] is the [runs] field of the
    bowler's object. *)
Record BatsmanStats : Type := mkBatsmanStats {
  runs : Z;
  ballsFaced : nat;
  fours : nat;
  sixes : nat;
  strikeRate : Q
}.

Record BowlerStats : Type := mkBowlerStats {
  runsGiven : Z;
  ballsBowled : nat;
  wickets : nat;
  maidens : Z;
  economy : Q;
  overs : nat;
  remainingBalls : nat
}.

Definition calculateBatsmanStats (m : Match) (player : Player) : BatsmanStats :=
  let playerBalls := filter (fun b => sameId (striker b) player) (balls m) in
  let runs :=
    fold_left (fun sum ball =>
                 if plain ball then (sum + Cricket.runs ball)%Z else sum)
              playerBalls 0%Z in
  let ballsFaced := length (filter legal playerBalls) in
  let fours := length (filter (fun b => (Cricket.runs b =? 4)%Z) playerBalls) in
  let sixes := length (filter (fun b => (Cricket.runs b =? 6)%Z) playerBalls) in
  let strikeRate :=
    if (0 <? ballsFaced)%nat
    then Js.toFixed 2 (inject_Z runs / inject_Z (Z.of_nat ballsFaced) * 100)%Q
    else 0%Q in
  mkBatsmanStats runs ballsFaced fours sixes strikeRate.

Definition calculateBowlerStats (m : Match) (player : Player) : BowlerStats :=
  let bowlerBalls := filter (fun b => sameId (bowler b) player) (balls m) in
  let runs := sumRuns bowlerBalls in
  let ballsBowled := length (filter legal bowlerBalls) in
  let wickets := length (filter (fun b => isWicket b && notRunOut b) bowlerBalls) in
  let maidens := 0%Z in
  let economy :=
    if (0 <? ballsBowled)%nat
    then Js.toFixed 2 (inject_Z runs / inject_Z (Z.of_nat ballsBowled) * 6)%Q
    else 0%Q in
  let overs := Nat.div ballsBowled 6 in
  let remainingBalls := Nat.modulo ballsBowled 6 in
  mkBowlerStats runs ballsBowled wickets maidens economy overs remainingBalls.

End CompactPlayerStats.

(** ** CompactPlayerStats.tsx, component [DetailedScorecardModal] *)

Module DetailedScorecardModal.

(** The [let] variables that the [forEach] callback of
    [calculateBattingStats] updates. *)
Record BattingAcc : Type := mkBattingAcc {
  runs : Z;
  balls : nat;
  fours : nat;
  sixes : nat;
  gotOut : bool
}.

Definition battingStep (player : Player) (acc : BattingAcc) (ball : Ball)
  : BattingAcc :=
  let acc1 :=
    if plain ball
    then mkBattingAcc (runs acc + Cricket.runs ball) (balls acc) (fours acc)
                      (sixes acc) (gotOut acc)
    else acc in
  let acc2 :=
    if legal ball
    then mkBattingAcc (runs acc1) (S (balls acc1)) (fours acc1) (sixes acc1)
                      (gotOut acc1)
    else acc1 in
  let acc3 :=
    if (Cricket.runs ball =? 4)%Z
    then mkBattingAcc (runs acc2) (balls acc2) (S (fours acc2)) (sixes acc2)
                      (gotOut acc2)
    else acc2 in
  let acc4 :=
    if (Cricket.runs ball =? 6)%Z
    then mkBattingAcc (runs acc3) (balls acc3) (fours acc3) (S (sixes acc3))
                      (gotOut acc3)
    else acc3 in
  if isWicket ball && sameId (striker ball) player
  then mkBattingAcc (runs acc4) (balls acc4) (fours acc4) (sixes acc4) true
  else acc4.

Definition battingTotals (m : Match) (player : Player) : BattingAcc :=
  let battingBalls :=
    filter (fun b => sameId (striker b) player) (Cricket.balls m) in
  fold_left (battingStep player) battingBalls (mkBattingAcc 0 0 0 0 false).

(** The returned object: the loop variables and [strikeRate]. *)
Record BattingStats : Type := mkBattingStats {
  totals : BattingAcc;
  strikeRate : Q
}.

Definition calculateBattingStats (m : Match) (player : Player) : BattingStats :=
  let acc := battingTotals m player in
  let strikeRate :=
    if (0 <? balls acc)%nat
    then Js.toFixed 1 (inject_Z (runs acc) / inject_Z (Z.of_nat (balls acc)) * 100)%Q
    else 0%Q in
  mkBattingStats acc strikeRate.

Record BowlingAcc : Type := mkBowlingAcc {
  wickets : nat;
  runsGiven : Z;
  ballsBowled : nat;
  wides : nat;
  noBalls : nat
}.

Definition bowlingStep (acc : BowlingAcc) (ball : Ball) : BowlingAcc :=
  let acc1 :=
    if legal ball
    then mkBowlingAcc (wickets acc) (runsGiven acc) (S (ballsBowled acc))
                      (wides acc) (noBalls acc)
    else acc in
  let acc2 :=
    if isWicket ball && notRunOut ball
    then mkBowlingAcc (S (wickets acc1)) (runsGiven acc1) (ballsBowled acc1)
                      (wides acc1) (noBalls acc1)
    else acc1 in
  let acc3 :=
    mkBowlingAcc (wickets acc2) (runsGiven acc2 + Cricket.runs ball)
                 (ballsBowled acc2) (wides acc2) (noBalls acc2) in
  let acc4 :=
    if isWide ball
    then mkBowlingAcc (wickets acc3) (runsGiven acc3) (ballsBowled acc3)
                      (S (wides acc3)) (noBalls acc3)
    else acc3 in
  if isNoBall ball
  then mkBowlingAcc (wickets acc4) (runsGiven acc4) (ballsBowled acc4)
                    (wides acc4) (S (noBalls acc4))
  else acc4.

Definition bowlingTotals (m : Match) (player : Player) : BowlingAcc :=
  let bowlingBalls :=
    filter (fun b => sameId (bowler b) player) (Cricket.balls m) in
  fold_left bowlingStep bowlingBalls (mkBowlingAcc 0 0 0 0 0).

(** [Math.floor(balls / 6) + (balls % 6) / 10] *)
Definition oversOf (balls : nat) : Q :=
  (inject_Z (Z.of_nat (Nat.div balls 6))
   + inject_Z (Z.of_nat (Nat.modulo balls 6)) / 10)%Q.

Record BowlingStats : Type := mkBowlingStats {
  overs : Q;
  wicketsTaken : nat;
  runsConceded : Z;
  economy : Q;
  widesBowled : nat;
  noBallsBowled : nat
}.

Definition calculateBowlingStats (m : Match) (player : Player) : BowlingStats :=
  let acc := bowlingTotals m player in
  let overs := oversOf (ballsBowled acc) in
  let economy :=
    if negb (Qle_bool overs 0)
    then Js.toFixed 2 (inject_Z (runsGiven acc) / overs)%Q
    else 0%Q in
  mkBowlingStats (Js.toFixed 1 overs) (wickets acc) (runsGiven acc) economy
                 (wides acc) (noBalls acc).

(** [[...match.team1.players, ...match.team2.players]] *)
Definition allPlayers (m : Match) : list Player :=
  players (team1 m) ++ players (team2 m).

(** [{ player, ...calculateBattingStats(player) }] *)
Record BattingRow : Type := mkBattingRow {
  battingPlayer : Player;
  battingFigures : BattingStats
}.

Definition battingStats (m : Match) : list BattingRow :=
  Js.sort (fun a b => (runs (totals (battingFigures b))
                       - runs (totals (battingFigures a)))%Z)
    (filter (fun stat => (0 <? runs (totals (battingFigures stat)))%Z
                         || (0 <? balls (totals (battingFigures stat)))%nat)
       (map (fun player => mkBattingRow player (calculateBattingStats m player))
            (allPlayers m))).

(** [{ player, ...calculateBowlingStats(player) }] *)
Record BowlingRow : Type := mkBowlingRow {
  bowlingPlayer : Player;
  bowlingFigures : BowlingStats
}.

(** The rows are kept on [parseFloat(stat.overs) > 0]. *)
Definition bowlingStats (m : Match) : list BowlingRow :=
  Js.sort (fun a b => (Z.of_nat (wicketsTaken (bowlingFigures b))
                       - Z.of_nat (wicketsTaken (bowlingFigures a)))%Z)
    (filter (fun stat => negb (Qle_bool (overs (bowlingFigures stat)) 0))
       (map (fun player => mkBowlingRow player (calculateBowlingStats m player))
            (allPlayers m))).

(** One entry of [getPartnerships]. *)
Record PartnershipEntry : Type := mkPartnershipEntry {
  partnershipRuns : Z;
  partnershipBalls : nat;
  batsmen : list string
}.

(** The variables of [getPartnerships]: the array [partnerships], the object
    [current], [lastWicket], and the index of the next delivery. *)
Record PartnershipState : Type := mkPartnershipState {
  partnerships : list PartnershipEntry;
  current : PartnershipEntry;
  lastWicket : option nat;
  nextIndex : nat
}.

Definition partnershipStep (st : PartnershipState) (d : Delivery)
  : PartnershipState :=
  let i := nextIndex st in
  let cur0 := current st in
  let cur1 :=
    if (i =? 0)%nat
    then mkPartnershipEntry
           (partnershipRuns cur0) (partnershipBalls cur0)
           (Js.filterBoolean [Some (name (striker (ball d)));
                              option_map name (nonStriker d)])
    else cur0 in
  let cur2 :=
    mkPartnershipEntry (partnershipRuns cur1 + Cricket.runs (ball d))
                       (partnershipBalls cur1) (batsmen cur1) in
  let cur3 :=
    if legal (ball d)
    then mkPartnershipEntry (partnershipRuns cur2) (S (partnershipBalls cur2))
                            (batsmen cur2)
    else cur2 in
  if isWicket (ball d)
  then mkPartnershipState
         (partnerships st ++ [cur3])
         (mkPartnershipEntry 0 0
            (Js.filterBoolean [option_map name (nonStriker d);
                               option_map name (nextBatsman d)]))
         (Some i) (S i)
  else mkPartnershipState (partnerships st) cur3 (lastWicket st) (S i).

Definition partnershipLoop (l : list Delivery) : PartnershipState :=
  fold_left partnershipStep l
            (mkPartnershipState [] (mkPartnershipEntry 0 0 []) None 0).

(** [getPartnerships(balls, teamPlayers)]; [teamPlayers] is not read. *)
Definition getPartnerships (l : list Delivery) (teamPlayers : list Player)
  : list PartnershipEntry :=
  let st := partnershipLoop l in
  if (0 <? partnershipBalls (current st))%nat
  then partnerships st ++ [current st]
  else partnerships st.

End DetailedScorecardModal.

(** ** LiveStatsBar (props [player], [balls]) *)

Module LiveStatsBar.

Record BatsmanStats : Type := mkBatsmanStats {
  runs : Z;
  ballsFaced : nat;
  fours : nat;
  sixes : nat;
  strikeRate : Q;
  dotBalls : nat
}.

(** The callback [b => !b.isWide && !ball.isNoBall] of the [ballsFaced]
    filter.  Its parameter is [b]; the enclosing scopes bind [playerBalls],
    [runs], [player], [balls], [type] and [isStriker], none of them under
    the name [ball].  [&&] evaluates its right operand only when the left
    one is true. *)
Definition ballsFacedCallback (arg : Ball) : Js.result bool :=
  let scope := [("b"%string, arg)] in
  Js.bind (Js.resolve scope "b") (fun b =>
  if negb (isWide b)
  then Js.bind (Js.resolve scope "ball") (fun ball =>
       Js.ret (negb (isNoBall ball)))
  else Js.ret false).

Definition calculateBatsmanStats (player : Player) (balls : list Ball)
  : Js.result BatsmanStats :=
  let playerBalls := filter (fun b => sameId (striker b) player) balls in
  let runs :=
    fold_left (fun sum ball =>
                 if plain ball then (sum + Cricket.runs ball)%Z else sum)
              playerBalls 0%Z in
  Js.bind (Js.filterE ballsFacedCallback playerBalls) (fun faced =>
  let ballsFaced := length faced in
  let fours := length (filter (fun b => (Cricket.runs b =? 4)%Z) playerBalls) in
  let sixes := length (filter (fun b => (Cricket.runs b =? 6)%Z) playerBalls) in
  let strikeRate :=
    if (0 <? ballsFaced)%nat
    then Js.toFixed 1 (inject_Z runs / inject_Z (Z.of_nat ballsFaced) * 100)%Q
    else 0%Q in
  let dotBalls :=
    length (filter (fun b => legal b && (Cricket.runs b =? 0)%Z) playerBalls) in
  Js.ret (mkBatsmanStats runs ballsFaced fours sixes strikeRate dotBalls)).

Record BowlerStats : Type := mkBowlerStats {
  runsGiven : Z;
  ballsBowled : nat;
  wickets : nat;
  dotBallsBowled : nat;
  economy : Q;
  overs : nat;
  remainingBalls : nat
}.

Definition calculateBowlerStats (player : Player) (balls : list Ball)
  : BowlerStats :=
  let bowlerBalls := filter (fun b => sameId (bowler b) player) balls in
  let runs := sumRuns bowlerBalls in
  let ballsBowled := length (filter legal bowlerBalls) in
  let wickets := length (filter (fun b => isWicket b && notRunOut b) bowlerBalls) in
  let dotBalls :=
    length (filter (fun b => legal b && (Cricket.runs b =? 0)%Z) bowlerBalls) in
  let economy :=
    if (0 <? ballsBowled)%nat
    then Js.toFixed 2 (inject_Z runs / inject_Z (Z.of_nat ballsBowled) * 6)%Q
    else 0%Q in
  let overs := Nat.div ballsBowled 6 in
  let remainingBalls := Nat.modulo ballsBowled 6 in
  mkBowlerStats runs ballsBowled wickets dotBalls economy overs remainingBalls.

End LiveStatsBar.

(** ** LiveScoreboard (prop [match]) *)

Module LiveScoreboard.

Record BatsmanStats : Type := mkBatsmanStats {
  runs : Z;
  ballsFaced : nat;
  fours : nat;
  sixes : nat;
  strikeRate : Q
}.

Definition calculateBatsmanStats (m : Match) (player : Player) : BatsmanStats :=
  let playerBalls := filter (fun b => sameId (striker b) player) (balls m) in
  let runs := sumRuns playerBalls in
  let ballsFaced := length (filter legal playerBalls) in
  let fours := length (filter (fun b => (Cricket.runs b =? 4)%Z) playerBalls) in
  let sixes := length (filter (fun b => (Cricket.runs b =? 6)%Z) playerBalls) in
  let strikeRate :=
    if (0 <? ballsFaced)%nat
    then Js.toFixed 2 (inject_Z runs / inject_Z (Z.of_nat ballsFaced) * 100)%Q
    else 0%Q in
  mkBatsmanStats runs ballsFaced fours sixes strikeRate.

Record BowlerStats : Type := mkBowlerStats {
  runsGiven : Z;
  ballsBowled : nat;
  wickets : nat;
  dotBalls : nat;
  economy : Q
}.

Definition calculateBowlerStats (m : Match) (player : Player) : BowlerStats :=
  let bowlerBalls := filter (fun b => sameId (bowler b) player) (balls m) in
  let runs := sumRuns bowlerBalls in
  let ballsBowled := length (filter legal bowlerBalls) in
  let wickets := length (filter (fun b => isWicket b && notRunOut b) bowlerBalls) in
  let dotBalls :=
    length (filter (fun b => legal b && (Cricket.runs b =? 0)%Z) bowlerBalls) in
  let economy :=
    if (0 <? ballsBowled)%nat
    then Js.toFixed 2 (inject_Z runs / inject_Z (Z.of_nat ballsBowled) * 6)%Q
    else 0%Q in
  mkBowlerStats runs ballsBowled wickets dotBalls economy.

End LiveScoreboard.

(** ** GroupDashboard.tsx *)

Module GroupDashboard.

Record BattingStats : Type := mkBattingStats {
  runs : Z;
  balls : nat;
  fours : nat;
  sixes : nat;
  highestScore : Z
}.

Record BowlingStats : Type := mkBowlingStats {
  wickets : nat;
  overs : Q;
  runsConceded : Z
}.

(** The entry of one player, without the fielding counters, the
    [bestBowling] string and [motmAwards]. *)
Record PlayerStats : Type := mkPlayerStats {
  player : Player;
  matches : nat;
  batting : BattingStats;
  bowling : BowlingStats;
  average : Q;
  strikeRate : Q;
  economy : Q;
  fifties : Z;
  hundreds : Z
}.

(** [players.some(p => p.id === player.id)] *)
Definition onRoster (t : Team) (p : Player) : bool :=
  existsb (fun q => sameId q p) (players t).

Definition playerMatches (ms : list Match) (p : Player) : list Match :=
  filter (fun m => onRoster (team1 m) p || onRoster (team2 m) p) ms.

(** [Math.max(...balls.map(b => b.runs), 0)] *)
Definition maxRuns (l : list Ball) : Z :=
  fold_right Z.max 0%Z (map Cricket.runs l).

Definition battingStep (p : Player) (acc : BattingStats) (m : Match)
  : BattingStats :=
  let balls := filter (fun b => sameId (striker b) p) (Cricket.balls m) in
  let runs := sumRuns balls in
  let fours := length (filter (fun b => (Cricket.runs b =? 4)%Z) balls) in
  let sixes := length (filter (fun b => (Cricket.runs b =? 6)%Z) balls) in
  let highestScore := maxRuns balls in
  mkBattingStats (GroupDashboard.runs acc + runs)
                 (GroupDashboard.balls acc + length balls)
                 (GroupDashboard.fours acc + fours)
                 (GroupDashboard.sixes acc + sixes)
                 (Z.max (GroupDashboard.highestScore acc) highestScore).

Definition bowlingStep (p : Player) (acc : BowlingStats) (m : Match)
  : BowlingStats :=
  let balls := filter (fun b => sameId (bowler b) p) (Cricket.balls m) in
  let wickets := length (filter (fun b => isWicket b && notRunOut b) balls) in
  let runs := sumRuns balls in
  mkBowlingStats (GroupDashboard.wickets acc + wickets)
                 (GroupDashboard.overs acc
                  + inject_Z (Z.of_nat (length balls)) / 6)%Q
                 (GroupDashboard.runsConceded acc + runs).

Definition statsOf (ms : list Match) (p : Player) : PlayerStats :=
  let playerMatches := playerMatches ms p in
  let battingStats :=
    fold_left (battingStep p) playerMatches (mkBattingStats 0 0 0 0 0) in
  let bowlingStats :=
    fold_left (bowlingStep p) playerMatches (mkBowlingStats 0 0 0) in
  let average :=
    (inject_Z (runs battingStats)
     / inject_Z (Z.of_nat (Js.orOneNat (balls battingStats))))%Q in
  let strikeRate :=
    (inject_Z (runs battingStats)
     / inject_Z (Z.of_nat (Js.orOneNat (balls battingStats))) * 100)%Q in
  let economy :=
    (inject_Z (runsConceded bowlingStats) / Js.orOneQ (overs bowlingStats))%Q in
  mkPlayerStats p (length playerMatches) battingStats bowlingStats
                (Js.toFixed 2 average) (Js.toFixed 2 strikeRate)
                (Js.toFixed 2 economy)
                (runs battingStats / 50)%Z (runs battingStats / 100)%Z.

Definition calculatePlayerStats (ms : list Match) (ps : list Player)
  : list PlayerStats :=
  map (statsOf ms) ps.





End GroupDashboard.

(** ** The score fields of [match] that ScoreDisplay reads *)

Module MatchState.

Record BattingTeam : Type := mkBattingTeam {
  score : Z;
  overs : Z;
  balls : Z
}.

Record Scoreboard : Type := mkScoreboard {
  firstInningsScore : Z;
  totalOvers : Z;
  battingTeam : BattingTeam
}.

End MatchState.

(** ** ScoreDisplay.tsx *)

Module ScoreDisplay.

(** The two constants of [formatOvers]: [Math.floor(balls / 6)] and
    [balls % 6] (the remainder takes the sign of the dividend). *)
Definition formatOvers_overs (balls : Z) : Z := (balls / 6)%Z.
Definition formatOvers_remainingBalls (balls : Z) : Z := Z.rem balls 6.

Definition formatOvers (balls : Z) : string :=
  (Js.showZ (formatOvers_overs balls) ++ "."
   ++ Js.showZ (formatOvers_remainingBalls balls))%string.

Record Partnership : Type := mkPartnership {
  runs : Z;
  balls : nat
}.

(** [arr.map((x, index) => f x index)], indices counted from [from]. *)
Fixpoint mapIndexFrom {A B} (f : A -> Z -> B) (from : Z) (l : list A) : list B :=
  match l with
  | [] => []
  | x :: t => f x from :: mapIndexFrom f (from + 1)%Z t
  end.

(** [arr.pop()]: the last element, [undefined] on an empty array. *)
Definition pop {A} (l : list A) : option A :=
  match rev l with
  | [] => None
  | x :: _ => Some x
  end.

(** [v || -1] for [v] a number or [undefined]: both [undefined] and [0] are
    falsy. *)
Definition orMinusOne (v : option Z) : Z :=
  match v with
  | None => (-1)%Z
  | Some i => if (i =? 0)%Z then (-1)%Z else i
  end.

(** [arr.slice(start)]: a negative [start] counts from the end. *)
Definition slice {A} (l : list A) (start : Z) : list A :=
  if (start <? 0)%Z
  then skipn (Z.to_nat (Z.max (Z.of_nat (length l) + start) 0)) l
  else skipn (Z.to_nat start) l.

(** [ball.innings === 1 || !ball.innings] *)
Definition firstInningsBall (ball : Ball) : bool :=
  match innings ball with
  | None => true
  | Some i => (i =? 1)%Z || (i =? 0)%Z
  end.

(** [ball.innings === 2] *)
Definition secondInningsBall (ball : Ball) : bool :=
  match innings ball with
  | None => false
  | Some i => (i =? 2)%Z
  end.

Definition currentInningsBalls (m : Match) : list Ball :=
  filter (fun ball =>
            (negb (isSecondInnings m) && firstInningsBall ball)
            || (isSecondInnings m && secondInningsBall ball))
         (Cricket.balls m).

Definition lastWicketIndex (l : list Ball) : Z :=
  orMinusOne
    (pop (filter (fun index => negb (index =? -1)%Z)
                 (mapIndexFrom (fun ball index =>
                                  if isWicket ball then index else (-1)%Z)
                               0%Z l))).

(** The part of [calculatePartnership] below the guard on the two batsmen. *)
Definition partnershipOf (l : list Ball) : Partnership :=
  let partnershipBalls := slice l (lastWicketIndex l + 1) in
  mkPartnership (sumRuns partnershipBalls)
                (length (filter legal partnershipBalls)).

Definition calculatePartnership (m : Match) : Partnership :=
  match currentStriker m, currentNonStriker m with
  | Some _, Some _ => partnershipOf (currentInningsBalls m)
  | _, _ => mkPartnership 0 0
  end.

Definition calculateRunRate (runs balls : Z) : Q :=
  if (balls =? 0)%Z then 0%Q
  else Js.toFixed 2 (inject_Z runs / inject_Z balls * 6)%Q.


(** [currentRate] of the component. *)
Definition currentRate (sb : MatchState.Scoreboard) : Q :=
  calculateRunRate
    (MatchState.score (MatchState.battingTeam sb))
    (MatchState.overs (MatchState.battingTeam sb) * 6
     + MatchState.balls (MatchState.battingTeam sb))%Z.

End ScoreDisplay.

(** ** Vocabulary of the statements *)

Module Spec.

(** The match [m] with ledger [l]. *)
Definition withBalls (m : Match) (l : list Ball) : Match :=
  mkMatch (team1 m) (team2 m) l (currentStriker m) (currentNonStriker m)
          (currentBowler m) (isSecondInnings m).

(** A counter [f] over ledgers counts exactly the deliveries satisfying [P]:
    it is zero on the empty ledger, a delivery satisfying [P] adds one
    wherever it stands, and any other delivery adds nothing. *)
Definition tallies (f : list Ball -> nat) (P : Ball -> Prop) : Prop :=
  f [] = 0%nat /\
  forall l1 b l2,
    (P b -> f (l1 ++ b :: l2) = S (f (l1 ++ l2))) /\
    (~ P b -> f (l1 ++ b :: l2) = f (l1 ++ l2)).

(** A delivery leaves the value [f] of the ledger as it is. *)
Definition unchangedBy {A} (f : list Ball -> A) (b : Ball) : Prop :=
  forall l1 l2, f (l1 ++ b :: l2) = f (l1 ++ l2).

(** The runs run on a delivery are added to the total [f]. *)
Definition creditedBy (f : list Ball -> Z) (b : Ball) : Prop :=
  forall l1 l2, f (l1 ++ b :: l2) = (f (l1 ++ l2) + Cricket.runs b)%Z.

Definition bowledBy (p : Player) (b : Ball) : Prop := id (bowler b) = id p.
Definition facedBy (p : Player) (b : Ball) : Prop := id (striker b) = id p.

(** The dismissal kinds that section 4.3 of the specification credits to
    the bowler. *)
Definition bowlerKind (k : WicketType) : Prop :=
  k = bowled \/ k = caught \/ k = lbw \/ k = stumped \/ k = hit_wicket.

(** Wicket attribution as the specification words it. *)
Definition creditedPerSpec (p : Player) (b : Ball) : Prop :=
  bowledBy p b /\ isWicket b = true /\
  exists k, wicketType b = Some k /\ bowlerKind k.

(** Wicket attribution as the components compute it: every wicket whose
    kind is not run-out. *)
Definition creditedToBowler (p : Player) (b : Ball) : Prop :=
  bowledBy p b /\ isWicket b = true /\ wicketType b <> Some run_out.

(** A boundary of [n] runs as the specification words it, and as the
    components count it. *)
Definition plainBoundary (n : Z) (p : Player) (b : Ball) : Prop :=
  facedBy p b /\ plain b = true /\ Cricket.runs b = n.

Definition anyBoundary (n : Z) (p : Player) (b : Ball) : Prop :=
  facedBy p b /\ Cricket.runs b = n.

(** The reducer of the batsman's [runs] total: only plain deliveries add
    their runs. *)
Definition plainStep (sum : Z) (ball : Ball) : Z :=
  if plain ball then (sum + Cricket.runs ball)%Z else sum.

(** The batting figures of the two scorecards as functions of the ledger. *)
Definition compactRuns (m : Match) (p : Player) (l : list Ball) : Z :=
  CompactPlayerStats.runs
    (CompactPlayerStats.calculateBatsmanStats (withBalls m l) p).

Definition compactBallsFaced (m : Match) (p : Player) (l : list Ball) : nat :=
  CompactPlayerStats.ballsFaced
    (CompactPlayerStats.calculateBatsmanStats (withBalls m l) p).

Definition compactFours (m : Match) (p : Player) (l : list Ball) : nat :=
  CompactPlayerStats.fours
    (CompactPlayerStats.calculateBatsmanStats (withBalls m l) p).

Definition compactSixes (m : Match) (p : Player) (l : list Ball) : nat :=
  CompactPlayerStats.sixes
    (CompactPlayerStats.calculateBatsmanStats (withBalls m l) p).

Definition detailedRuns (m : Match) (p : Player) (l : list Ball) : Z :=
  DetailedScorecardModal.runs
    (DetailedScorecardModal.totals
       (DetailedScorecardModal.calculateBattingStats (withBalls m l) p)).

Definition detailedBalls (m : Match) (p : Player) (l : list Ball) : nat :=
  DetailedScorecardModal.balls
    (DetailedScorecardModal.totals
       (DetailedScorecardModal.calculateBattingStats (withBalls m l) p)).

Definition detailedFours (m : Match) (p : Player) (l : list Ball) : nat :=
  DetailedScorecardModal.fours
    (DetailedScorecardModal.totals
       (DetailedScorecardModal.calculateBattingStats (withBalls m l) p)).

Definition detailedSixes (m : Match) (p : Player) (l : list Ball) : nat :=
  DetailedScorecardModal.sixes
    (DetailedScorecardModal.totals
       (DetailedScorecardModal.calculateBattingStats (withBalls m l) p)).


(** The deliveries bowled strictly after the most recent wicket delivery;
    the whole ledger when no wicket has fallen. *)
Fixpoint sinceLastWicket (l : list Ball) : list Ball :=
  match l with
  | [] => []
  | b :: t =>
      if existsb isWicket t then sinceLastWicket t
      else if isWicket b then t else b :: t
  end.

(** Runs and legal deliveries of a stretch of the ledger. *)
Definition totalsOf (l : list Ball) : ScoreDisplay.Partnership :=
  ScoreDisplay.mkPartnership (sumRuns l) (length (filter legal l)).

(** The current partnership as the specification words it. *)
Definition partnershipPerSpec (l : list Ball) : ScoreDisplay.Partnership :=
  totalsOf (sinceLastWicket l).

(** Position of the last wicket delivery, positions counted from [from]. *)
Fixpoint lastWicketFrom (from : Z) (l : list Ball) : option Z :=
  match l with
  | [] => None
  | b :: t =>
      match lastWicketFrom (from + 1) t with
      | Some i => Some i
      | None => if isWicket b then Some from else None
      end
  end.

(** Times dismissed over a list of matches: the wicket deliveries on which
    the player is the striker (the test behind [gotOut] in
    DetailedScorecardModal). *)
Definition timesDismissed (ms : list Match) (p : Player) : nat :=
  list_sum
    (map (fun m => length (filter (fun b => isWicket b && sameId (striker b) p)
                                  (balls m))) ms).

(** Legal deliveries bowled by a player in a match. *)
Definition legalBallsBowled (m : Match) (p : Player) : nat :=
  length (filter (fun b => sameId (bowler b) p && legal b) (balls m)).

(** The reference definitions of the derived rates. *)
Definition battingAverage (runs : Z) (dismissals : nat) : Q :=
  (inject_Z runs / inject_Z (Z.of_nat dismissals))%Q.

Definition strikeRateOf (runs : Z) (ballsFaced : nat) : Q :=
  (inject_Z runs / inject_Z (Z.of_nat ballsFaced) * 100)%Q.

Definition economyOf (runsConceded : Z) (overs : Q) : Q :=
  (inject_Z runsConceded / overs)%Q.

(** Runs and balls added up over a list of partnership entries. *)
Definition entriesRuns (es : list DetailedScorecardModal.PartnershipEntry) : Z :=
  fold_right (fun e a => (DetailedScorecardModal.partnershipRuns e + a)%Z) 0%Z es.

Definition entriesBalls (es : list DetailedScorecardModal.PartnershipEntry) : nat :=
  fold_right (fun e a => (DetailedScorecardModal.partnershipBalls e + a)%nat)
             0%nat es.

(** The runs and balls of an entry as a [Partnership] of ScoreDisplay. *)
Definition figuresOf (e : DetailedScorecardModal.PartnershipEntry)
  : ScoreDisplay.Partnership :=
  ScoreDisplay.mkPartnership (DetailedScorecardModal.partnershipRuns e)
                             (DetailedScorecardModal.partnershipBalls e).

(** The ledger under a list of scorecard deliveries. *)
Definition ledgerOf (l : list Delivery) : list Ball := map ball l.

(** Deliveries of any kind that a player faced, and bowled, over a list of
    matches. *)
Definition deliveriesFaced (ms : list Match) (p : Player) : nat :=
  list_sum (map (fun m => length (filter (fun b => sameId (striker b) p)
                                         (balls m))) ms).


(** Sum of a list of integers. *)
Definition sumZ (l : list Z) : Z := fold_right Z.add 0%Z l.

End Spec.

(** ** Players and deliveries used in the examples *)

Module Sample.

Definition asha : Player := mkPlayer "p1" "Asha".
Definition ravi : Player := mkPlayer "p2" "Ravi".
Definition kiran : Player := mkPlayer "p3" "Kiran".

(** [asha] facing [ravi] in the first innings. *)
Definition delivery (r : Z) (wide noBall bye legBye wicket : bool)
           (kind : option WicketType) : Ball :=
  mkBall (Some 1%Z) asha ravi r wide noBall bye legBye wicket kind.

Definition dot : Ball := delivery 0 false false false false false None.
Definition single : Ball := delivery 1 false false false false false None.
Definition four : Ball := delivery 4 false false false false false None.
Definition wideFour : Ball := delivery 4 true false false false false None.
Definition wideOne : Ball := delivery 1 true false false false false None.
Definition noBallTwo : Ball := delivery 2 false true false false false None.
Definition byeOne : Ball := delivery 1 false false true false false None.
Definition bowledOut : Ball :=
  delivery 0 false false false false true (Some bowled).
Definition runOutOnOne : Ball :=
  delivery 1 false false false false true (Some run_out).
Definition retiredOut : Ball :=
  delivery 0 false false false false true (Some retired).
Definition fourThenOut : Ball :=
  delivery 4 false false false false true (Some run_out).

Definition matchOf (l : list Ball) : Match :=
  mkMatch (mkTeam [asha; kiran]) (mkTeam [ravi]) l
          (Some asha) (Some kiran) (Some ravi) false.

(** Scorecard deliveries: [kiran] at the other end, [ravi] next in. *)
Definition scored (b : Ball) : Delivery := mkDelivery b (Some kiran) (Some ravi).

(** A match between two other sides in which [asha] is named as striker. *)
Definition strayMatch : Match :=
  mkMatch (mkTeam [kiran]) (mkTeam [ravi]) [four; four] None None None false.

(** A delivery of the second innings. *)
Definition secondInningsFour : Ball :=
  mkBall (Some 2%Z) kiran asha 4 false false false false false None.


End Sample.

Import Spec.

(** * Properties *)

(** ** Lists, filters and sums *)

Section ListFacts.

Context {A : Type}.

Lemma filter_filter_andb (p q : A -> bool) (l : list A) :
  filter q (filter p l) = filter (fun x => p x && q x) l.
Proof.
  induction l as [|x l IH]; simpl; [reflexivity|].
  destruct (p x); simpl; [destruct (q x)|]; now rewrite IH.
Qed.

Lemma length_filter_insert (q : A -> bool) (l1 l2 : list A) (x : A) :
  length (filter q (l1 ++ x :: l2))
  = (length (filter q (l1 ++ l2)) + (if q x then 1 else 0))%nat.
Proof.
  rewrite !filter_app, !length_app. simpl.
  destruct (q x); simpl; lia.
Qed.

End ListFacts.

Lemma tallies_filter (q : Ball -> bool) (P : Ball -> Prop) :
  (forall b, q b = true <-> P b) ->
  tallies (fun l => length (filter q l)) P.
Proof.
  intros Hq. split; [reflexivity|].
  intros l1 b l2. rewrite length_filter_insert.
  split; intros Hb.
  - apply Hq in Hb. rewrite Hb. lia.
  - destruct (q b) eqn:E; [apply Hq in E; contradiction | lia].
Qed.

Lemma tallies_ext (f g : list Ball -> nat) (P : Ball -> Prop) :
  (forall l, f l = g l) -> tallies g P -> tallies f P.
Proof.
  intros E [H0 H]. split; [now rewrite E|].
  intros l1 b l2. rewrite !E. apply H.
Qed.

Lemma sameId_true (a b : Player) : sameId a b = true <-> id a = id b.
Proof. unfold sameId. apply String.eqb_eq. Qed.

Lemma notRunOut_true (b : Ball) :
  notRunOut b = true <-> wicketType b <> Some run_out.
Proof.
  unfold notRunOut. destruct (wicketType b) as [k|].
  - destruct k; simpl; split; intros H; congruence.
  - split; [discriminate | reflexivity].
Qed.

Lemma creditedToBowler_true (p : Player) (b : Ball) :
  sameId (bowler b) p && (isWicket b && notRunOut b) = true
  <-> creditedToBowler p b.
Proof.
  unfold creditedToBowler, bowledBy.
  rewrite !andb_true_iff, sameId_true, notRunOut_true. tauto.
Qed.

(** ** Wicket attribution (C1) *)

Lemma Compact_wickets_eq (m : Match) (p : Player) :
  CompactPlayerStats.wickets (CompactPlayerStats.calculateBowlerStats m p)
  = length (filter (fun b => sameId (bowler b) p && (isWicket b && notRunOut b))
                   (balls m)).
Proof.
  unfold CompactPlayerStats.calculateBowlerStats. simpl.
  now rewrite filter_filter_andb.
Qed.

Lemma LiveStatsBar_wickets_eq (p : Player) (l : list Ball) :
  LiveStatsBar.wickets (LiveStatsBar.calculateBowlerStats p l)
  = length (filter (fun b => sameId (bowler b) p && (isWicket b && notRunOut b)) l).
Proof.
  unfold LiveStatsBar.calculateBowlerStats. simpl.
  now rewrite filter_filter_andb.
Qed.

Lemma GroupDashboard_wickets_fold (p : Player) (ms : list Match)
      (acc : GroupDashboard.BowlingStats) :
  GroupDashboard.wickets (fold_left (GroupDashboard.bowlingStep p) ms acc)
  = (GroupDashboard.wickets acc
     + list_sum
         (map (fun m => CompactPlayerStats.wickets
                          (CompactPlayerStats.calculateBowlerStats m p)) ms))%nat.
Proof.
  revert acc. induction ms as [|m ms IH]; intros acc; simpl.
  - lia.
  - rewrite IH. simpl. lia.
Qed.

Lemma creditedPerSpec_counted (p : Player) (b : Ball) :
  creditedPerSpec p b -> creditedToBowler p b.
Proof.
  intros (Hb & Hw & k & Hk & Hkind). repeat split; trivial.
  rewrite Hk. intros E. injection E as ->.
  destruct Hkind as [H|[H|[H|[H|H]]]]; discriminate H.
Qed.

(** Ravi's tally over a bowled, a run-out and a retired dismissal. *)
Lemma wicket_tally_example :
  CompactPlayerStats.wickets
    (CompactPlayerStats.calculateBowlerStats
       (Sample.matchOf [Sample.bowledOut; Sample.runOutOnOne; Sample.retiredOut])
       Sample.ravi) = 2%nat.
Proof. reflexivity. Qed.

(** C1, as worded, fails: a delivery bowled by Ravi on which the striker is
    out [retired] is none of bowled, caught, lbw, stumped or hit-wicket, yet
    the tally of Ravi's wickets over the one-delivery ledger is 1, not 0; so
    the tally does not count exactly the deliveries the claim lists. *)
Lemma C1_retired_is_counted :
  ~ creditedPerSpec Sample.ravi Sample.retiredOut
  /\ CompactPlayerStats.wickets
       (CompactPlayerStats.calculateBowlerStats
          (Sample.matchOf [Sample.retiredOut]) Sample.ravi) = 1%nat
  /\ LiveStatsBar.wickets
       (LiveStatsBar.calculateBowlerStats Sample.ravi [Sample.retiredOut]) = 1%nat
  /\ ~ tallies (fun l => CompactPlayerStats.wickets
                           (CompactPlayerStats.calculateBowlerStats
                              (Sample.matchOf l) Sample.ravi))
               (creditedPerSpec Sample.ravi).
Proof.
  assert (Hn : ~ creditedPerSpec Sample.ravi Sample.retiredOut).
  { intros (_ & _ & k & Hk & Hkind). simpl in Hk. injection Hk as <-.
    destruct Hkind as [H|[H|[H|[H|H]]]]; discriminate H. }
  split; [exact Hn|]. split; [reflexivity|]. split; [reflexivity|].
  intros [_ H]. destruct (H [] Sample.retiredOut []) as [_ H1].
  specialize (H1 Hn). vm_compute in H1. discriminate H1.
Qed.

(** C1, amended: for every match, bowler and ledger, the wicket tally of
    CompactPlayerStats and of LiveStatsBar counts a delivery if and only if it
    is bowled by that bowler, is a wicket, and its dismissal kind is not
    run-out; GroupDashboard adds up that same tally over the matches that have
    the player on a roster.  Hence a run-out never increments the tally, every
    bowled, caught, lbw, stumped or hit-wicket dismissal does, and so does a
    retired one. *)
Theorem C1_wicket_tally (m : Match) (p : Player) :
  tallies (fun l => CompactPlayerStats.wickets
                      (CompactPlayerStats.calculateBowlerStats (withBalls m l) p))
          (creditedToBowler p)
  /\ tallies (fun l => LiveStatsBar.wickets (LiveStatsBar.calculateBowlerStats p l))
             (creditedToBowler p)
  /\ (forall ms,
        GroupDashboard.wickets (GroupDashboard.bowling (GroupDashboard.statsOf ms p))
        = list_sum
            (map (fun m' => CompactPlayerStats.wickets
                              (CompactPlayerStats.calculateBowlerStats m' p))
                 (GroupDashboard.playerMatches ms p)))
  /\ (forall b, wicketType b = Some run_out -> ~ creditedToBowler p b)
  /\ (forall b, creditedPerSpec p b -> creditedToBowler p b)
  /\ (forall b, bowledBy p b -> isWicket b = true ->
                wicketType b = Some retired -> creditedToBowler p b).
Proof.
  split; [|split; [|split; [|split; [|split]]]].
  - eapply tallies_ext; [intros l; apply Compact_wickets_eq|]. simpl.
    apply tallies_filter. intros b. apply creditedToBowler_true.
  - eapply tallies_ext; [intros l; apply LiveStatsBar_wickets_eq|].
    apply tallies_filter. intros b. apply creditedToBowler_true.
  - intros ms. unfold GroupDashboard.statsOf. simpl.
    now rewrite GroupDashboard_wickets_fold.
  - intros b Hk (_ & _ & Hne). contradiction.
  - apply creditedPerSpec_counted.
  - intros b Hb Hw Hk. repeat split; trivial. rewrite Hk. discriminate.
Qed.

(** ** Batting figures of CompactPlayerStats and DetailedScorecardModal *)

Lemma plainStep_fold_shift (l : list Ball) (a : Z) :
  fold_left plainStep l a = (a + fold_left plainStep l 0)%Z.
Proof.
  revert a. induction l as [|b l IH]; intros a; simpl; [lia|].
  rewrite IH, (IH (plainStep 0 b)). unfold plainStep.
  destruct (plain b); lia.
Qed.

Lemma plainStep_fold_insert (q : Ball -> bool) (l1 l2 : list Ball) (b : Ball) :
  fold_left plainStep (filter q (l1 ++ b :: l2)) 0%Z
  = (fold_left plainStep (filter q (l1 ++ l2)) 0
     + (if q b && plain b then Cricket.runs b else 0))%Z.
Proof.
  rewrite !filter_app, !fold_left_app. simpl.
  generalize (fold_left plainStep (filter q l1) 0%Z) as a. intros a.
  destruct (q b); simpl; [|lia].
  rewrite (plainStep_fold_shift _ (plainStep a b)), (plainStep_fold_shift _ a).
  unfold plainStep at 1. destruct (plain b); lia.
Qed.

Lemma Compact_runs_eq (m : Match) (p : Player) :
  CompactPlayerStats.runs (CompactPlayerStats.calculateBatsmanStats m p)
  = fold_left plainStep (filter (fun b => sameId (striker b) p) (balls m)) 0%Z.
Proof. reflexivity. Qed.

Lemma Compact_ballsFaced_eq (m : Match) (p : Player) :
  CompactPlayerStats.ballsFaced (CompactPlayerStats.calculateBatsmanStats m p)
  = length (filter (fun b => sameId (striker b) p && legal b) (balls m)).
Proof.
  unfold CompactPlayerStats.calculateBatsmanStats.
  cbn [CompactPlayerStats.ballsFaced]. now rewrite filter_filter_andb.
Qed.

Lemma Compact_boundaries_eq (m : Match) (p : Player) :
  CompactPlayerStats.fours (CompactPlayerStats.calculateBatsmanStats m p)
  = length (filter (fun b => sameId (striker b) p && (Cricket.runs b =? 4)%Z)
                   (balls m))
  /\ CompactPlayerStats.sixes (CompactPlayerStats.calculateBatsmanStats m p)
     = length (filter (fun b => sameId (striker b) p && (Cricket.runs b =? 6)%Z)
                      (balls m)).
Proof.
  unfold CompactPlayerStats.calculateBatsmanStats.
  cbn [CompactPlayerStats.fours CompactPlayerStats.sixes].
  now rewrite !filter_filter_andb.
Qed.

Lemma Detailed_batting_fold (p : Player) (l : list Ball)
      (acc : DetailedScorecardModal.BattingAcc) :
  let r := fold_left (DetailedScorecardModal.battingStep p) l acc in
  DetailedScorecardModal.runs r
  = fold_left plainStep l (DetailedScorecardModal.runs acc)
  /\ DetailedScorecardModal.balls r
     = (DetailedScorecardModal.balls acc + length (filter legal l))%nat
  /\ DetailedScorecardModal.fours r
     = (DetailedScorecardModal.fours acc
        + length (filter (fun b => (Cricket.runs b =? 4)%Z) l))%nat
  /\ DetailedScorecardModal.sixes r
     = (DetailedScorecardModal.sixes acc
        + length (filter (fun b => (Cricket.runs b =? 6)%Z) l))%nat.
Proof.
  revert acc. induction l as [|b l IH]; intros acc; simpl.
  - repeat split; lia.
  - destruct (IH (DetailedScorecardModal.battingStep p acc b))
      as (Hr & Hb & Hf & Hs).
    rewrite Hr, Hb, Hf, Hs. clear IH Hr Hb Hf Hs.
    unfold DetailedScorecardModal.battingStep, plainStep.
    destruct (plain b), (legal b), (Cricket.runs b =? 4)%Z,
      (Cricket.runs b =? 6)%Z, (isWicket b && sameId (striker b) p);
      simpl; repeat split; lia.
Qed.

(** DetailedScorecardModal's loop produces the figures of CompactPlayerStats. *)
Lemma Detailed_batting_eq (m : Match) (p : Player) :
  let d := DetailedScorecardModal.totals
             (DetailedScorecardModal.calculateBattingStats m p) in
  let c := CompactPlayerStats.calculateBatsmanStats m p in
  DetailedScorecardModal.runs d = CompactPlayerStats.runs c
  /\ DetailedScorecardModal.balls d = CompactPlayerStats.ballsFaced c
  /\ DetailedScorecardModal.fours d = CompactPlayerStats.fours c
  /\ DetailedScorecardModal.sixes d = CompactPlayerStats.sixes c.
Proof.
  unfold DetailedScorecardModal.calculateBattingStats.
  cbn [DetailedScorecardModal.totals].
  unfold DetailedScorecardModal.battingTotals.
  destruct (Detailed_batting_fold p
              (filter (fun b => sameId (striker b) p) (balls m))
              (DetailedScorecardModal.mkBattingAcc 0 0 0 0 false))
    as (Hr & Hb & Hf & Hs).
  cbn [DetailedScorecardModal.runs DetailedScorecardModal.balls
       DetailedScorecardModal.fours DetailedScorecardModal.sixes] in *.
  unfold CompactPlayerStats.calculateBatsmanStats.
  cbn [CompactPlayerStats.runs CompactPlayerStats.ballsFaced
       CompactPlayerStats.fours CompactPlayerStats.sixes].
  rewrite Hr, Hb, Hf, Hs. repeat split; reflexivity.
Qed.

Lemma LiveStatsBar_batsman_returns (m : Match) (p : Player) (l : list Ball)
      (s : LiveStatsBar.BatsmanStats) :
  LiveStatsBar.calculateBatsmanStats p l = inr s ->
  let c := CompactPlayerStats.calculateBatsmanStats (withBalls m l) p in
  LiveStatsBar.runs s = CompactPlayerStats.runs c
  /\ LiveStatsBar.fours s = CompactPlayerStats.fours c
  /\ LiveStatsBar.sixes s = CompactPlayerStats.sixes c.
Proof.
  unfold LiveStatsBar.calculateBatsmanStats.
  destruct (Js.filterE _ _) as [e|faced]; simpl; [discriminate|].
  intros H. injection H as <-. simpl. repeat split; reflexivity.
Qed.

Lemma boundary_true (n : Z) (p : Player) (b : Ball) :
  sameId (striker b) p && (Cricket.runs b =? n)%Z = true <-> anyBoundary n p b.
Proof.
  unfold anyBoundary, facedBy.
  rewrite andb_true_iff, sameId_true, Z.eqb_eq. tauto.
Qed.

Lemma compactRuns_insert (m : Match) (p : Player) (l1 l2 : list Ball) (b : Ball) :
  compactRuns m p (l1 ++ b :: l2)
  = (compactRuns m p (l1 ++ l2)
     + (if sameId (striker b) p && plain b then Cricket.runs b else 0))%Z.
Proof.
  unfold compactRuns. rewrite !Compact_runs_eq.
  apply (plainStep_fold_insert (fun x => sameId (striker x) p)).
Qed.

Lemma compactBallsFaced_insert (m : Match) (p : Player) (l1 l2 : list Ball)
      (b : Ball) :
  compactBallsFaced m p (l1 ++ b :: l2)
  = (compactBallsFaced m p (l1 ++ l2)
     + (if sameId (striker b) p && legal b then 1 else 0))%nat.
Proof.
  unfold compactBallsFaced. rewrite !Compact_ballsFaced_eq.
  apply (length_filter_insert (fun x => sameId (striker x) p && legal x)).
Qed.

Lemma detailed_is_compact (m : Match) (p : Player) (l : list Ball) :
  detailedRuns m p l = compactRuns m p l
  /\ detailedBalls m p l = compactBallsFaced m p l
  /\ detailedFours m p l = compactFours m p l
  /\ detailedSixes m p l = compactSixes m p l.
Proof. apply Detailed_batting_eq. Qed.

Lemma compact_boundaries (n : Z) (m : Match) (p : Player) :
  tallies (fun l => length (filter (fun b => sameId (striker b) p
                                             && (Cricket.runs b =? n)%Z) l))
          (anyBoundary n p).
Proof. apply tallies_filter. intros b. apply boundary_true. Qed.

(** ** Fours and sixes (C2) *)

(** C2, as worded, fails: a wide on which four runs are run, faced by Asha, is
    not a plain delivery, yet the fours count of the one-delivery ledger is 1
    in both scorecards of CompactPlayerStats.tsx and in LiveStatsBar; so the
    count does not tally the plain four-run deliveries only. *)
Lemma C2_wide_four_is_counted :
  ~ plainBoundary 4 Sample.asha Sample.wideFour
  /\ compactFours (Sample.matchOf []) Sample.asha [Sample.wideFour] = 1%nat
  /\ detailedFours (Sample.matchOf []) Sample.asha [Sample.wideFour] = 1%nat
  /\ (exists s, LiveStatsBar.calculateBatsmanStats Sample.asha [Sample.wideFour]
                = inr s /\ LiveStatsBar.fours s = 1%nat)
  /\ ~ tallies (compactFours (Sample.matchOf []) Sample.asha)
               (plainBoundary 4 Sample.asha).
Proof.
  assert (Hn : ~ plainBoundary 4 Sample.asha Sample.wideFour).
  { intros (_ & Hp & _). discriminate Hp. }
  split; [exact Hn|]. split; [reflexivity|]. split; [reflexivity|].
  split; [eexists; split; reflexivity|].
  intros [_ H]. destruct (H [] Sample.wideFour []) as [_ H1].
  specialize (H1 Hn). vm_compute in H1. discriminate H1.
Qed.

(** C2, amended: for every match, batsman and ledger, the fours count
    (respectively sixes count) of calculateBatsmanStats and of
    calculateBattingStats counts a delivery if and only if it is faced by that
    batsman and exactly 4 (respectively 6) runs were run on it, whatever extra
    flags it carries; LiveStatsBar reports the same two counts whenever it
    returns. *)
Theorem C2_boundary_counts (m : Match) (p : Player) :
  tallies (compactFours m p) (anyBoundary 4 p)
  /\ tallies (compactSixes m p) (anyBoundary 6 p)
  /\ tallies (detailedFours m p) (anyBoundary 4 p)
  /\ tallies (detailedSixes m p) (anyBoundary 6 p)
  /\ (forall l s,
        LiveStatsBar.calculateBatsmanStats p l = inr s ->
        LiveStatsBar.fours s = compactFours m p l
        /\ LiveStatsBar.sixes s = compactSixes m p l).
Proof.
  assert (H4 : tallies (compactFours m p) (anyBoundary 4 p)).
  { eapply tallies_ext; [|apply (compact_boundaries 4 m p)].
    intros l. unfold compactFours. apply Compact_boundaries_eq. }
  assert (H6 : tallies (compactSixes m p) (anyBoundary 6 p)).
  { eapply tallies_ext; [|apply (compact_boundaries 6 m p)].
    intros l. unfold compactSixes. apply Compact_boundaries_eq. }
  split; [exact H4|]. split; [exact H6|].
  split; [|split].
  - eapply tallies_ext; [|exact H4]. intros l. apply detailed_is_compact.
  - eapply tallies_ext; [|exact H6]. intros l. apply detailed_is_compact.
  - intros l s Hs.
    destruct (LiveStatsBar_batsman_returns m p l s Hs) as (_ & Hf & Hx).
    split; assumption.
Qed.

(** C2 at a ledger on which LiveStatsBar returns: one wide with four runs. *)
Lemma C2_boundary_counts_witness :
  exists s,
    LiveStatsBar.calculateBatsmanStats Sample.asha [Sample.wideFour] = inr s
    /\ LiveStatsBar.fours s
       = compactFours (Sample.matchOf []) Sample.asha [Sample.wideFour]
    /\ LiveStatsBar.sixes s
       = compactSixes (Sample.matchOf []) Sample.asha [Sample.wideFour].
Proof.
  eexists. split; [reflexivity|].
  apply (C2_boundary_counts (Sample.matchOf []) Sample.asha).
  reflexivity.
Defined.

(** ** Runs off a no-ball (C3) *)

Lemma compactRuns_not_plain (m : Match) (p : Player) (b : Ball) :
  plain b = false -> unchangedBy (compactRuns m p) b.
Proof.
  intros Hp l1 l2. rewrite compactRuns_insert, Hp, andb_false_r. lia.
Qed.

Lemma detailedRuns_not_plain (m : Match) (p : Player) (b : Ball) :
  plain b = false -> unchangedBy (detailedRuns m p) b.
Proof.
  intros Hp l1 l2.
  destruct (detailed_is_compact m p (l1 ++ b :: l2)) as (-> & _).
  destruct (detailed_is_compact m p (l1 ++ l2)) as (-> & _).
  now apply compactRuns_not_plain.
Qed.

(** C3, as worded, fails: Asha faces a no-ball, flagged neither bye nor
    leg-bye, on which two runs are run; her personal total over the
    one-delivery ledger is 0 in both scorecards, so the two runs are not
    credited to her. *)
Lemma C3_no_ball_runs_not_credited :
  isNoBall Sample.noBallTwo = true
  /\ isBye Sample.noBallTwo = false
  /\ isLegBye Sample.noBallTwo = false
  /\ facedBy Sample.asha Sample.noBallTwo
  /\ Cricket.runs Sample.noBallTwo = 2%Z
  /\ compactRuns (Sample.matchOf []) Sample.asha [Sample.noBallTwo] = 0%Z
  /\ detailedRuns (Sample.matchOf []) Sample.asha [Sample.noBallTwo] = 0%Z
  /\ ~ creditedBy (compactRuns (Sample.matchOf []) Sample.asha) Sample.noBallTwo
  /\ ~ creditedBy (detailedRuns (Sample.matchOf []) Sample.asha) Sample.noBallTwo.
Proof.
  repeat (split; [reflexivity|]).
  split; intros H; specialize (H [] []); vm_compute in H; discriminate H.
Qed.

(** C3, amended: for every delivery flagged no-ball, whether or not it is
    also flagged bye or leg-bye, the striker's personal runs total computed by
    calculateBatsmanStats and by calculateBattingStats is unchanged by that
    delivery. *)
Theorem C3_no_ball_runs (m : Match) (p : Player) (b : Ball) :
  isNoBall b = true ->
  unchangedBy (compactRuns m p) b /\ unchangedBy (detailedRuns m p) b.
Proof.
  intros Hnb.
  assert (Hp : plain b = false).
  { unfold plain. rewrite Hnb. now destruct (isWide b). }
  split; [now apply compactRuns_not_plain | now apply detailedRuns_not_plain].
Qed.

Lemma C3_no_ball_runs_witness :
  isNoBall Sample.noBallTwo = true
  /\ unchangedBy (compactRuns (Sample.matchOf []) Sample.asha) Sample.noBallTwo
  /\ unchangedBy (detailedRuns (Sample.matchOf []) Sample.asha) Sample.noBallTwo.
Proof.
  split; [reflexivity|].
  apply (C3_no_ball_runs (Sample.matchOf []) Sample.asha Sample.noBallTwo).
  reflexivity.
Defined.

(** ** Wides, byes and leg-byes (C4) *)

(** C4, as worded, fails in its second half: Asha faces a delivery flagged
    bye (neither wide nor no-ball); her balls-faced count over the
    one-delivery ledger is 1 in both scorecards, against 0 over the empty
    ledger. *)
Lemma C4_bye_is_a_ball_faced :
  isBye Sample.byeOne = true
  /\ compactBallsFaced (Sample.matchOf []) Sample.asha [] = 0%nat
  /\ compactBallsFaced (Sample.matchOf []) Sample.asha [Sample.byeOne] = 1%nat
  /\ detailedBalls (Sample.matchOf []) Sample.asha [] = 0%nat
  /\ detailedBalls (Sample.matchOf []) Sample.asha [Sample.byeOne] = 1%nat
  /\ ~ unchangedBy (compactBallsFaced (Sample.matchOf []) Sample.asha)
                   Sample.byeOne
  /\ ~ unchangedBy (detailedBalls (Sample.matchOf []) Sample.asha)
                   Sample.byeOne.
Proof.
  repeat (split; [reflexivity|]).
  split; intros H; specialize (H [] []); vm_compute in H; discriminate H.
Qed.

(** C4, amended: for every delivery flagged wide, bye or leg-bye, the
    striker's personal runs total is unchanged by that delivery; the
    balls-faced count is unchanged by a wide, and a bye or leg-bye adds one to
    it exactly when the batsman faces the delivery and it is neither a wide
    nor a no-ball. *)
Theorem C4_extras_and_the_striker (m : Match) (p : Player) (b : Ball) :
  isWide b = true \/ isBye b = true \/ isLegBye b = true ->
  unchangedBy (compactRuns m p) b
  /\ unchangedBy (detailedRuns m p) b
  /\ (forall l1 l2,
        compactBallsFaced m p (l1 ++ b :: l2)
        = (compactBallsFaced m p (l1 ++ l2)
           + (if sameId (striker b) p && negb (isWide b) && negb (isNoBall b)
              then 1 else 0))%nat)
  /\ (forall l1 l2,
        detailedBalls m p (l1 ++ b :: l2)
        = (detailedBalls m p (l1 ++ l2)
           + (if sameId (striker b) p && negb (isWide b) && negb (isNoBall b)
              then 1 else 0))%nat)
  /\ (isWide b = true ->
      unchangedBy (compactBallsFaced m p) b /\ unchangedBy (detailedBalls m p) b).
Proof.
  intros Hx.
  assert (Hp : plain b = false).
  { unfold plain.
    destruct (isWide b), (isNoBall b), (isBye b), (isLegBye b); simpl;
      try reflexivity; destruct Hx as [H|[H|H]]; discriminate H. }
  assert (Hc : forall l1 l2,
             compactBallsFaced m p (l1 ++ b :: l2)
             = (compactBallsFaced m p (l1 ++ l2)
                + (if sameId (striker b) p && negb (isWide b) && negb (isNoBall b)
                   then 1 else 0))%nat).
  { intros l1 l2. rewrite compactBallsFaced_insert.
    unfold legal. now rewrite andb_assoc. }
  assert (Hd : forall l1 l2,
             detailedBalls m p (l1 ++ b :: l2)
             = (detailedBalls m p (l1 ++ l2)
                + (if sameId (striker b) p && negb (isWide b) && negb (isNoBall b)
                   then 1 else 0))%nat).
  { intros l1 l2.
    destruct (detailed_is_compact m p (l1 ++ b :: l2)) as (_ & -> & _).
    destruct (detailed_is_compact m p (l1 ++ l2)) as (_ & -> & _).
    apply Hc. }
  split; [now apply compactRuns_not_plain|].
  split; [now apply detailedRuns_not_plain|].
  split; [exact Hc|]. split; [exact Hd|].
  intros Hw. split; intros l1 l2; [rewrite Hc | rewrite Hd];
    rewrite Hw, andb_false_r; simpl; lia.
Qed.

Lemma C4_extras_and_the_striker_witness :
  (isWide Sample.byeOne = true \/ isBye Sample.byeOne = true
   \/ isLegBye Sample.byeOne = true)
  /\ unchangedBy (compactRuns (Sample.matchOf []) Sample.asha) Sample.byeOne
  /\ compactBallsFaced (Sample.matchOf []) Sample.asha ([] ++ Sample.byeOne :: [])
     = (compactBallsFaced (Sample.matchOf []) Sample.asha ([] ++ []) + 1)%nat.
Proof.
  assert (H : isWide Sample.byeOne = true \/ isBye Sample.byeOne = true
              \/ isLegBye Sample.byeOne = true)
    by (right; left; reflexivity).
  split; [exact H|].
  destruct (C4_extras_and_the_striker (Sample.matchOf []) Sample.asha
              Sample.byeOne H) as (Hr & _ & Hb & _).
  split; [exact Hr | exact (Hb [] [])].
Defined.

(** ** Overs and remaining balls (C6) *)

(** C6: for every count [n] of legal deliveries, the two figures that
    formatOvers prints satisfy [n = overs * 6 + remainder] with the remainder
    between 0 and 5, and the string is the two figures around a dot; the
    bowler figures of CompactPlayerStats and LiveStatsBar split their
    legal-delivery count in the same way. *)
Theorem C6_overs_division_identity (n : nat) :
  (ScoreDisplay.formatOvers_overs (Z.of_nat n) * 6
   + ScoreDisplay.formatOvers_remainingBalls (Z.of_nat n) = Z.of_nat n
   /\ 0 <= ScoreDisplay.formatOvers_remainingBalls (Z.of_nat n) <= 5)%Z
  /\ ScoreDisplay.formatOvers (Z.of_nat n)
     = (Js.showZ (ScoreDisplay.formatOvers_overs (Z.of_nat n)) ++ "."
        ++ Js.showZ (ScoreDisplay.formatOvers_remainingBalls (Z.of_nat n)))%string
  /\ (forall m p,
        let s := CompactPlayerStats.calculateBowlerStats m p in
        CompactPlayerStats.ballsBowled s = legalBallsBowled m p
        /\ CompactPlayerStats.ballsBowled s
           = (CompactPlayerStats.overs s * 6
              + CompactPlayerStats.remainingBalls s)%nat
        /\ (CompactPlayerStats.remainingBalls s <= 5)%nat)
  /\ (forall m p,
        let s := LiveStatsBar.calculateBowlerStats p (balls m) in
        LiveStatsBar.ballsBowled s = legalBallsBowled m p
        /\ LiveStatsBar.ballsBowled s
           = (LiveStatsBar.overs s * 6 + LiveStatsBar.remainingBalls s)%nat
        /\ (LiveStatsBar.remainingBalls s <= 5)%nat).
Proof.
  split; [|split; [reflexivity|split]].
  - unfold ScoreDisplay.formatOvers_overs, ScoreDisplay.formatOvers_remainingBalls.
    rewrite Z.rem_mod_nonneg by lia.
    pose proof (Z.div_mod (Z.of_nat n) 6 ltac:(lia)) as Hd.
    pose proof (Z.mod_pos_bound (Z.of_nat n) 6 ltac:(lia)) as Hb.
    lia.
  - intros m p.
    unfold CompactPlayerStats.calculateBowlerStats, legalBallsBowled.
    cbn [CompactPlayerStats.ballsBowled CompactPlayerStats.overs
         CompactPlayerStats.remainingBalls].
    rewrite filter_filter_andb. split; [reflexivity|].
    set (k := length _).
    pose proof (Nat.div_mod_eq k 6) as Hd.
    pose proof (Nat.mod_upper_bound k 6 ltac:(lia)) as Hb. lia.
  - intros m p.
    unfold LiveStatsBar.calculateBowlerStats, legalBallsBowled.
    cbn [LiveStatsBar.ballsBowled LiveStatsBar.overs
         LiveStatsBar.remainingBalls].
    rewrite filter_filter_andb. split; [reflexivity|].
    set (k := length _).
    pose proof (Nat.div_mod_eq k 6) as Hd.
    pose proof (Nat.mod_upper_bound k 6 ltac:(lia)) as Hb. lia.
Qed.

(** ** Maiden overs (C8) *)

(** C8: for every match and bowler, the maidens figure of
    calculateBowlerStats is 0; it stays 0 on a ledger that holds a complete
    over of six legal deliveries without a run. *)
Theorem C8_maidens_is_zero (m : Match) (p : Player) :
  CompactPlayerStats.maidens (CompactPlayerStats.calculateBowlerStats m p) = 0%Z
  /\ (let over := repeat Sample.dot 6 in
      let s := CompactPlayerStats.calculateBowlerStats
                 (Sample.matchOf over) Sample.ravi in
      CompactPlayerStats.overs s = 1%nat
      /\ CompactPlayerStats.runsGiven s = 0%Z
      /\ CompactPlayerStats.maidens s = 0%Z).
Proof. split; [reflexivity|]. repeat split; reflexivity. Qed.

(** ** The balls-faced filter of LiveStatsBar (C9) *)

Lemma ballsFacedCallback_eq (b : Ball) :
  LiveStatsBar.ballsFacedCallback b
  = if isWide b then inr false else inl (Js.ReferenceError "ball").
Proof.
  unfold LiveStatsBar.ballsFacedCallback. simpl. now destruct (isWide b).
Qed.

Lemma filterE_ballsFaced (l : list Ball) :
  Js.filterE LiveStatsBar.ballsFacedCallback l
  = if forallb isWide l then inr [] else inl (Js.ReferenceError "ball").
Proof.
  induction l as [|b l IH]; simpl; [reflexivity|].
  rewrite ballsFacedCallback_eq.
  destruct (isWide b); simpl; [|reflexivity].
  rewrite IH. now destruct (forallb isWide l).
Qed.

Lemma forallb_false_exists {A} (f : A -> bool) (l : list A) :
  forallb f l = false <-> exists x, In x l /\ f x = false.
Proof.
  induction l as [|a l IH]; simpl.
  - split; [discriminate | intros (x & [] & _)].
  - rewrite andb_false_iff, IH. split.
    + intros [H|(x & Hin & Hx)]; [exists a | exists x]; auto.
    + intros (x & [->|Hin] & Hx); [left | right; exists x]; auto.
Qed.

(** LiveStatsBar returns batsman figures exactly on the ledgers in which every
    delivery the player faces is a wide. *)
Lemma LiveStatsBar_batsman_returns_iff (p : Player) (l : list Ball) :
  (exists s, LiveStatsBar.calculateBatsmanStats p l = inr s)
  <-> forall b, In b l -> facedBy p b -> isWide b = true.
Proof.
  unfold LiveStatsBar.calculateBatsmanStats.
  rewrite filterE_ballsFaced.
  destruct (forallb isWide (filter _ l)) eqn:E; simpl.
  - split; [|intros _; eexists; reflexivity].
    intros _ b Hin Hf. rewrite forallb_forall in E. apply E.
    apply filter_In. split; [exact Hin | now apply sameId_true].
  - split; [intros (s & Hs); discriminate Hs|].
    intros H. apply forallb_false_exists in E. destruct E as (b & Hin & Hw).
    apply filter_In in Hin. destruct Hin as (Hin & Hid).
    rewrite (H b Hin) in Hw; [discriminate Hw | now apply sameId_true].
Qed.

(** C9 fails on the code: whenever the ledger holds a delivery that the
    player faces and that is not a wide, calculateBatsmanStats of LiveStatsBar
    does not evaluate to a stats record; it raises ReferenceError for the
    identifier [ball], which the callback of the balls-faced filter uses
    without any enclosing scope binding it. *)
Theorem C9_balls_faced_filter_raises (p : Player) (l : list Ball) :
  (exists b, In b l /\ facedBy p b /\ isWide b = false) ->
  LiveStatsBar.calculateBatsmanStats p l = inl (Js.ReferenceError "ball").
Proof.
  intros (b & Hin & Hf & Hw).
  unfold LiveStatsBar.calculateBatsmanStats.
  rewrite filterE_ballsFaced.
  assert (E : forallb isWide (filter (fun x => sameId (striker x) p) l) = false).
  { apply forallb_false_exists. exists b. split; [|exact Hw].
    apply filter_In. split; [exact Hin | now apply sameId_true]. }
  now rewrite E.
Qed.

(** The failing input of C9: Asha has faced one plain single. *)
Lemma C9_balls_faced_filter_raises_witness :
  (exists b, In b [Sample.single] /\ facedBy Sample.asha b /\ isWide b = false)
  /\ LiveStatsBar.calculateBatsmanStats Sample.asha [Sample.single]
     = inl (Js.ReferenceError "ball").
Proof.
  assert (H : exists b, In b [Sample.single] /\ facedBy Sample.asha b
                        /\ isWide b = false).
  { exists Sample.single. split; [left; reflexivity|]. split; reflexivity. }
  split; [exact H|].
  exact (C9_balls_faced_filter_raises Sample.asha [Sample.single] H).
Defined.

(** ** Batsman runs of LiveScoreboard against CompactPlayerStats (C10) *)

Lemma sumRuns_fold_shift (l : list Ball) (a : Z) :
  fold_left (fun sum ball => (sum + Cricket.runs ball)%Z) l a
  = (a + sumRuns l)%Z.
Proof.
  unfold sumRuns. revert a. induction l as [|b l IH]; intros a; simpl; [lia|].
  rewrite IH, (IH (Cricket.runs b)). lia.
Qed.

Lemma sumRuns_cons (b : Ball) (l : list Ball) :
  sumRuns (b :: l) = (Cricket.runs b + sumRuns l)%Z.
Proof. unfold sumRuns at 1. simpl. now rewrite sumRuns_fold_shift. Qed.

Lemma sumRuns_split_plain (l : list Ball) :
  sumRuns l
  = (fold_left plainStep l 0 + sumRuns (filter (fun b => negb (plain b)) l))%Z.
Proof.
  induction l as [|b l IH]; [reflexivity|].
  rewrite sumRuns_cons. simpl fold_left. rewrite plainStep_fold_shift.
  simpl. unfold plainStep at 1.
  destruct (plain b); simpl; [|rewrite sumRuns_cons]; lia.
Qed.

(** C10 fails on the code: LiveScoreboard credits the striker with the runs
    of every delivery faced, so its total is the total of CompactPlayerStats
    plus the runs of the faced deliveries that carry a wide, no-ball, bye or
    leg-bye flag.  On the ledger made of one wide with one run faced by Asha,
    LiveScoreboard reports 1 and CompactPlayerStats 0. *)
Theorem C10_live_scoreboard_runs :
  (forall m p,
      LiveScoreboard.runs (LiveScoreboard.calculateBatsmanStats m p)
      = (CompactPlayerStats.runs (CompactPlayerStats.calculateBatsmanStats m p)
         + sumRuns (filter (fun b => negb (plain b))
                           (filter (fun b => sameId (striker b) p) (balls m))))%Z)
  /\ LiveScoreboard.runs
       (LiveScoreboard.calculateBatsmanStats
          (Sample.matchOf [Sample.wideOne]) Sample.asha) = 1%Z
  /\ CompactPlayerStats.runs
       (CompactPlayerStats.calculateBatsmanStats
          (Sample.matchOf [Sample.wideOne]) Sample.asha) = 0%Z.
Proof.
  split; [|split; reflexivity].
  intros m p.
  unfold LiveScoreboard.calculateBatsmanStats,
    CompactPlayerStats.calculateBatsmanStats.
  cbn [LiveScoreboard.runs CompactPlayerStats.runs].
  apply sumRuns_split_plain.
Qed.

(** ** The current partnership (C7) *)

Lemma pop_cons {A} (x : A) (l : list A) :
  ScoreDisplay.pop (x :: l)
  = match ScoreDisplay.pop l with Some y => Some y | None => Some x end.
Proof.
  unfold ScoreDisplay.pop. simpl. now destruct (rev l).
Qed.

Lemma pop_wicket_indices (l : list Ball) (from : Z) :
  (0 <= from)%Z ->
  ScoreDisplay.pop
    (filter (fun index => negb (index =? -1)%Z)
            (ScoreDisplay.mapIndexFrom
               (fun ball index => if isWicket ball then index else (-1)%Z)
               from l))
  = lastWicketFrom from l.
Proof.
  revert from. induction l as [|b t IH]; intros from Hfrom; [reflexivity|].
  simpl. destruct (isWicket b).
  - replace (from =? -1)%Z with false by (symmetry; apply Z.eqb_neq; lia).
    simpl. rewrite pop_cons, IH by lia. reflexivity.
  - simpl. rewrite IH by lia. now destruct (lastWicketFrom (from + 1) t).
Qed.

Lemma lastWicketFrom_none (l : list Ball) (from : Z) :
  existsb isWicket l = false -> lastWicketFrom from l = None.
Proof.
  revert from. induction l as [|b t IH]; intros from H; [reflexivity|].
  simpl in *. apply orb_false_iff in H. destruct H as (Hb & Ht).
  now rewrite (IH _ Ht), Hb.
Qed.

Lemma lastWicketFrom_spec (l : list Ball) (from : Z) :
  match lastWicketFrom from l with
  | Some i =>
      (from <= i)%Z
      /\ existsb isWicket l = true
      /\ skipn (Z.to_nat (i - from + 1)) l = sinceLastWicket l
  | None => existsb isWicket l = false /\ sinceLastWicket l = l
  end.
Proof.
  revert from. induction l as [|b t IH]; intros from; [now split|].
  simpl. specialize (IH (from + 1)%Z).
  destruct (lastWicketFrom (from + 1) t) as [i|].
  - destruct IH as (Hi & He & Hs). rewrite He, orb_true_r.
    split; [lia|]. split; [reflexivity|].
    replace (i - from + 1)%Z with (Z.succ (i - (from + 1) + 1)) by lia.
    rewrite Z2Nat.inj_succ by lia. exact Hs.
  - destruct IH as (He & Hs). rewrite He, orb_false_r.
    destruct (isWicket b).
    + split; [lia|]. split; [reflexivity|].
      now replace (from - from + 1)%Z with 1%Z by lia.
    + now split.
Qed.

Lemma lastWicketIndex_eq (l : list Ball) :
  ScoreDisplay.lastWicketIndex l = ScoreDisplay.orMinusOne (lastWicketFrom 0 l).
Proof.
  unfold ScoreDisplay.lastWicketIndex. now rewrite pop_wicket_indices by lia.
Qed.

(** Away from a wicket on the very first delivery, the displayed partnership
    is the one the specification describes. *)
Lemma partnershipOf_agrees (l : list Ball) :
  lastWicketFrom 0 l <> Some 0%Z ->
  ScoreDisplay.partnershipOf l = partnershipPerSpec l.
Proof.
  intros Hne. unfold ScoreDisplay.partnershipOf, partnershipPerSpec, totalsOf.
  rewrite lastWicketIndex_eq.
  pose proof (lastWicketFrom_spec l 0) as Hs.
  destruct (lastWicketFrom 0 l) as [i|]; simpl.
  - destruct Hs as (Hi & _ & Hs).
    assert (Hi0 : i <> 0%Z) by congruence.
    replace (i =? 0)%Z with false by (symmetry; now apply Z.eqb_neq).
    unfold ScoreDisplay.slice.
    replace (i + 1 <? 0)%Z with false by (symmetry; apply Z.ltb_ge; lia).
    replace (i - 0 + 1)%Z with (i + 1)%Z in Hs by lia.
    now rewrite Hs.
  - destruct Hs as (_ & Hs). unfold ScoreDisplay.slice. simpl. now rewrite Hs.
Qed.

Lemma partnershipOf_first_ball_wicket (b : Ball) (t : list Ball) :
  isWicket b = true -> existsb isWicket t = false ->
  ScoreDisplay.partnershipOf (b :: t) = totalsOf (b :: t)
  /\ partnershipPerSpec (b :: t) = totalsOf t.
Proof.
  intros Hb Ht. split.
  - unfold ScoreDisplay.partnershipOf. rewrite lastWicketIndex_eq.
    simpl lastWicketFrom. rewrite (lastWicketFrom_none t _ Ht), Hb.
    reflexivity.
  - unfold partnershipPerSpec. simpl. now rewrite Ht, Hb.
Qed.

Lemma totalsOf_cons_neq (b : Ball) (t : list Ball) :
  legal b = true \/ Cricket.runs b <> 0%Z -> totalsOf (b :: t) <> totalsOf t.
Proof.
  unfold totalsOf. intros H E. injection E as Er El.
  rewrite sumRuns_cons in Er. simpl in El.
  destruct H as [H|H]; [rewrite H in El; simpl in El|]; lia.
Qed.

(** C7 fails on the code: when both batsmen are at the crease and the only
    wicket of the current innings fell on its very first delivery,
    calculatePartnership reports the totals of the whole innings, the wicket
    delivery included, where the claim asks for the totals of the deliveries
    after it; the two differ as soon as the wicket delivery was legal or had
    runs on it.  ([lastWicketIndex] takes the position 0 for "no wicket".) *)
Theorem C7_first_ball_wicket_partnership (m : Match) (b : Ball) (t : list Ball) :
  currentStriker m <> None ->
  currentNonStriker m <> None ->
  ScoreDisplay.currentInningsBalls m = b :: t ->
  isWicket b = true ->
  existsb isWicket t = false ->
  ScoreDisplay.calculatePartnership m = totalsOf (b :: t)
  /\ partnershipPerSpec (ScoreDisplay.currentInningsBalls m) = totalsOf t
  /\ (legal b = true \/ Cricket.runs b <> 0%Z ->
      ScoreDisplay.calculatePartnership m
      <> partnershipPerSpec (ScoreDisplay.currentInningsBalls m)).
Proof.
  intros Hs Hn Hl Hb Ht.
  destruct (partnershipOf_first_ball_wicket b t Hb Ht) as (Hcode & Hspec).
  assert (Hc : ScoreDisplay.calculatePartnership m = totalsOf (b :: t)).
  { unfold ScoreDisplay.calculatePartnership.
    destruct (currentStriker m); [|congruence].
    destruct (currentNonStriker m); [|congruence].
    now rewrite Hl. }
  rewrite Hl. split; [exact Hc|]. split; [exact Hspec|].
  intros Hd. rewrite Hc, Hspec. now apply totalsOf_cons_neq.
Qed.

(** The failing input of C7: the first delivery of the innings is a run-out
    on which one run was completed, the second a four. The display shows 5
    runs off 2 balls for a partnership of 4 runs off 1 ball. *)
Lemma C7_first_ball_wicket_partnership_witness :
  ScoreDisplay.calculatePartnership
    (Sample.matchOf [Sample.runOutOnOne; Sample.four])
  = ScoreDisplay.mkPartnership 5 2
  /\ partnershipPerSpec
       (ScoreDisplay.currentInningsBalls
          (Sample.matchOf [Sample.runOutOnOne; Sample.four]))
     = ScoreDisplay.mkPartnership 4 1.
Proof.
  destruct (C7_first_ball_wicket_partnership
              (Sample.matchOf [Sample.runOutOnOne; Sample.four])
              Sample.runOutOnOne [Sample.four])
    as (Hc & Hs & _);
    [discriminate | discriminate | reflexivity | reflexivity | reflexivity |].
  split; [exact Hc | exact Hs].
Defined.

(** With both batsmen at the crease and the last wicket anywhere but on the
    first delivery of the innings (or no wicket at all), the display is the
    partnership of the specification. *)
Lemma calculatePartnership_agrees (m : Match) :
  currentStriker m <> None ->
  currentNonStriker m <> None ->
  lastWicketFrom 0 (ScoreDisplay.currentInningsBalls m) <> Some 0%Z ->
  ScoreDisplay.calculatePartnership m
  = partnershipPerSpec (ScoreDisplay.currentInningsBalls m).
Proof.
  intros Hs Hn Hl. unfold ScoreDisplay.calculatePartnership.
  destruct (currentStriker m); [|congruence].
  destruct (currentNonStriker m); [|congruence].
  now apply partnershipOf_agrees.
Qed.

(** ** Derived rates (C5) *)

Lemma orOneNat_pos (n : nat) : n <> 0%nat -> Js.orOneNat n = n.
Proof. destruct n; [contradiction | reflexivity]. Qed.

(** GroupDashboard's strike rate is the reference rate over its accumulated
    runs and deliveries faced, rounded to two decimals. *)
Lemma GroupDashboard_strikeRate (ms : list Match) (p : Player) :
  let s := GroupDashboard.statsOf ms p in
  GroupDashboard.balls (GroupDashboard.batting s) <> 0%nat ->
  GroupDashboard.strikeRate s
  = Js.toFixed 2 (strikeRateOf (GroupDashboard.runs (GroupDashboard.batting s))
                               (GroupDashboard.balls (GroupDashboard.batting s))).
Proof.
  intros s Hb. unfold s, GroupDashboard.statsOf, strikeRateOf in *.
  cbn [GroupDashboard.strikeRate GroupDashboard.batting] in *.
  now rewrite orOneNat_pos.
Qed.

(** GroupDashboard's economy is the reference rate over its accumulated runs
    conceded and overs, rounded to two decimals. *)
Lemma GroupDashboard_economy (ms : list Match) (p : Player) :
  let s := GroupDashboard.statsOf ms p in
  Qeq_bool (GroupDashboard.overs (GroupDashboard.bowling s)) 0 = false ->
  GroupDashboard.economy s
  = Js.toFixed 2 (economyOf (GroupDashboard.runsConceded (GroupDashboard.bowling s))
                            (GroupDashboard.overs (GroupDashboard.bowling s))).
Proof.
  intros s Ho. unfold s, GroupDashboard.statsOf, economyOf, Js.orOneQ in *.
  cbn [GroupDashboard.economy GroupDashboard.bowling] in *.
  now rewrite Ho.
Qed.

(** GroupDashboard's average divides the runs by the deliveries faced. *)
Lemma GroupDashboard_average (ms : list Match) (p : Player) :
  let s := GroupDashboard.statsOf ms p in
  GroupDashboard.average s
  = Js.toFixed 2
      (inject_Z (GroupDashboard.runs (GroupDashboard.batting s))
       / inject_Z (Z.of_nat (Js.orOneNat
                               (GroupDashboard.balls (GroupDashboard.batting s)))))%Q.
Proof. reflexivity. Qed.

(** C5 fails on the code in two places.  GroupDashboard: Asha faces a dot ball
    and is then run out going for a fifth run after four were completed; she
    has 4 runs off 2 deliveries and 1 dismissal, her batting average is
    4 / 1 = 4, and calculatePlayerStats reports 2, the runs per delivery
    faced.  DetailedScorecardModal: Ravi bowls five legal deliveries for one
    run each, that is 5/6 of an over for 5 runs, an economy of 6;
    calculateBowlingStats divides by the scorer's notation 0.5 read as a
    number and reports 10. *)
Theorem C5_average_and_economy_denominators :
  (let ms := [Sample.matchOf [Sample.dot; Sample.fourThenOut]] in
   let s := GroupDashboard.statsOf ms Sample.asha in
   GroupDashboard.runs (GroupDashboard.batting s) = 4%Z
   /\ GroupDashboard.balls (GroupDashboard.batting s) = 2%nat
   /\ timesDismissed ms Sample.asha = 1%nat
   /\ (GroupDashboard.average s == 2)%Q
   /\ (battingAverage 4 1 == 4)%Q
   /\ ~ (GroupDashboard.average s
         == battingAverage (GroupDashboard.runs (GroupDashboard.batting s))
                           (timesDismissed ms Sample.asha))%Q)
  /\ (let m := Sample.matchOf (repeat Sample.single 5) in
      let s := DetailedScorecardModal.calculateBowlingStats m Sample.ravi in
      DetailedScorecardModal.runsConceded s = 5%Z
      /\ legalBallsBowled m Sample.ravi = 5%nat
      /\ (DetailedScorecardModal.economy s == 10)%Q
      /\ (economyOf 5 (5 # 6) == 6)%Q
      /\ ~ (DetailedScorecardModal.economy s
            == economyOf (DetailedScorecardModal.runsConceded s)
                         (inject_Z (Z.of_nat (legalBallsBowled m Sample.ravi)) / 6))%Q).
Proof.
  split.
  - repeat (split; [reflexivity|]).
    intros H. vm_compute in H. discriminate H.
  - repeat (split; [reflexivity|]).
    intros H. vm_compute in H. discriminate H.
Qed.


(** * Further properties of the components *)

(** ** The four bowling summaries *)

Lemma Detailed_bowling_fold (l : list Ball) (acc : DetailedScorecardModal.BowlingAcc) :
  let r := fold_left DetailedScorecardModal.bowlingStep l acc in
  DetailedScorecardModal.wickets r
  = (DetailedScorecardModal.wickets acc
     + length (filter (fun b => isWicket b && notRunOut b) l))%nat
  /\ DetailedScorecardModal.runsGiven r
     = (DetailedScorecardModal.runsGiven acc + sumRuns l)%Z
  /\ DetailedScorecardModal.ballsBowled r
     = (DetailedScorecardModal.ballsBowled acc + length (filter legal l))%nat
  /\ DetailedScorecardModal.wides r
     = (DetailedScorecardModal.wides acc + length (filter isWide l))%nat
  /\ DetailedScorecardModal.noBalls r
     = (DetailedScorecardModal.noBalls acc + length (filter isNoBall l))%nat.
Proof.
  revert acc. induction l as [|b l IH]; intros acc.
  - unfold sumRuns. simpl. repeat split; lia.
  - simpl fold_left.
    destruct (IH (DetailedScorecardModal.bowlingStep acc b))
      as (Hw & Hr & Hb & Hwd & Hnb).
    cbv zeta. rewrite Hw, Hr, Hb, Hwd, Hnb. clear IH Hw Hr Hb Hwd Hnb.
    rewrite sumRuns_cons. simpl filter.
    unfold DetailedScorecardModal.bowlingStep.
    destruct (legal b), (isWicket b && notRunOut b), (isWide b), (isNoBall b);
      simpl; repeat split; lia.
Qed.

Lemma Detailed_bowlingTotals_eq (m : Match) (p : Player) :
  let t := DetailedScorecardModal.bowlingTotals m p in
  let bowled := filter (fun b => sameId (bowler b) p) (balls m) in
  DetailedScorecardModal.wickets t
  = length (filter (fun b => isWicket b && notRunOut b) bowled)
  /\ DetailedScorecardModal.runsGiven t = sumRuns bowled
  /\ DetailedScorecardModal.ballsBowled t = length (filter legal bowled)
  /\ DetailedScorecardModal.wides t = length (filter isWide bowled)
  /\ DetailedScorecardModal.noBalls t = length (filter isNoBall bowled).
Proof.
  unfold DetailedScorecardModal.bowlingTotals.
  destruct (Detailed_bowling_fold
              (filter (fun b => sameId (bowler b) p) (balls m))
              (DetailedScorecardModal.mkBowlingAcc 0 0 0 0 0))
    as (Hw & Hr & Hb & Hwd & Hnb).
  cbv zeta in *. rewrite Hw, Hr, Hb, Hwd, Hnb. simpl. repeat split; lia.
Qed.

Lemma length_filter_le {A} (q : A -> bool) (l : list A) :
  (length (filter q l) <= length l)%nat.
Proof.
  induction l as [|x l IH]; simpl; [lia|]. destruct (q x); simpl; lia.
Qed.

Lemma length_filter_andb_le {A} (q r : A -> bool) (l : list A) :
  (length (filter (fun x => q x && r x) l) <= length (filter q l))%nat.
Proof.
  rewrite <- filter_filter_andb. apply length_filter_le.
Qed.

(** X1: the bowling summaries of CompactPlayerStats, LiveStatsBar,
    LiveScoreboard and DetailedScorecardModal report, for every match and
    bowler, the same wickets and the same runs conceded; the first three also
    the same legal-ball count and economy, and DetailedScorecardModal's loop
    counts the same legal balls.  The dot balls of LiveStatsBar and
    LiveScoreboard agree and never exceed the legal balls. *)
Theorem X1_bowling_summaries_agree (m : Match) (p : Player) :
  let c := CompactPlayerStats.calculateBowlerStats m p in
  let s := LiveStatsBar.calculateBowlerStats p (balls m) in
  let b := LiveScoreboard.calculateBowlerStats m p in
  let d := DetailedScorecardModal.calculateBowlingStats m p in
  (CompactPlayerStats.wickets c = LiveStatsBar.wickets s
   /\ LiveStatsBar.wickets s = LiveScoreboard.wickets b
   /\ LiveScoreboard.wickets b = DetailedScorecardModal.wicketsTaken d)
  /\ (CompactPlayerStats.runsGiven c = LiveStatsBar.runsGiven s
      /\ LiveStatsBar.runsGiven s = LiveScoreboard.runsGiven b
      /\ LiveScoreboard.runsGiven b = DetailedScorecardModal.runsConceded d)
  /\ (CompactPlayerStats.ballsBowled c = LiveStatsBar.ballsBowled s
      /\ LiveStatsBar.ballsBowled s = LiveScoreboard.ballsBowled b
      /\ LiveScoreboard.ballsBowled b
         = DetailedScorecardModal.ballsBowled
             (DetailedScorecardModal.bowlingTotals m p))
  /\ (CompactPlayerStats.economy c = LiveStatsBar.economy s
      /\ LiveStatsBar.economy s = LiveScoreboard.economy b)
  /\ LiveStatsBar.dotBallsBowled s = LiveScoreboard.dotBalls b
  /\ (LiveScoreboard.dotBalls b <= LiveScoreboard.ballsBowled b)%nat.
Proof.
  destruct (Detailed_bowlingTotals_eq m p) as (Hw & Hr & Hb & _).
  cbv zeta in *.
  unfold DetailedScorecardModal.calculateBowlingStats.
  cbn [DetailedScorecardModal.wicketsTaken DetailedScorecardModal.runsConceded].
  rewrite Hw, Hr, Hb.
  repeat split; try reflexivity.
  unfold LiveScoreboard.calculateBowlerStats.
  cbn [LiveScoreboard.dotBalls LiveScoreboard.ballsBowled].
  apply length_filter_andb_le.
Qed.

(** ** Wides and no-balls in the bowling figures of the scorecard *)

Lemma legal_wide_noBall_count (l : list Ball) :
  (length (filter legal l) + length (filter isWide l)
   + length (filter isNoBall l)
   = length l + length (filter (fun b => isWide b && isNoBall b) l))%nat.
Proof.
  induction l as [|b l IH]; [reflexivity|].
  simpl. unfold legal at 1.
  destruct (isWide b), (isNoBall b); simpl; lia.
Qed.

(** X2: in calculateBowlingStats of the scorecard the legal balls, wides and
    no-balls of a bowler add up to the deliveries the bowler bowled plus the
    deliveries flagged both wide and no-ball, which are counted under both
    headings. *)
Theorem X2_wides_and_no_balls_accounting (m : Match) (p : Player) :
  let t := DetailedScorecardModal.bowlingTotals m p in
  let d := DetailedScorecardModal.calculateBowlingStats m p in
  let bowled := filter (fun b => sameId (bowler b) p) (balls m) in
  DetailedScorecardModal.widesBowled d = DetailedScorecardModal.wides t
  /\ DetailedScorecardModal.noBallsBowled d = DetailedScorecardModal.noBalls t
  /\ (DetailedScorecardModal.ballsBowled t
      + DetailedScorecardModal.widesBowled d
      + DetailedScorecardModal.noBallsBowled d
      = length bowled
        + length (filter (fun b => isWide b && isNoBall b) bowled))%nat.
Proof.
  destruct (Detailed_bowlingTotals_eq m p) as (_ & _ & Hb & Hwd & Hnb).
  cbv zeta in *.
  unfold DetailedScorecardModal.calculateBowlingStats.
  cbn [DetailedScorecardModal.widesBowled DetailedScorecardModal.noBallsBowled].
  split; [reflexivity|]. split; [reflexivity|].
  rewrite Hb, Hwd, Hnb. apply legal_wide_noBall_count.
Qed.

(** ** Rounding by [toFixed] *)

Lemma scale_pos (d : nat) : (0 < inject_Z (10 ^ Z.of_nat d))%Q.
Proof.
  unfold Qlt. simpl. rewrite Z.mul_1_r.
  apply Z.pow_pos_nonneg; lia.
Qed.

Lemma toFixedAbs_comp (d : nat) (x y : Q) :
  (x == y)%Q -> (Js.toFixedAbs d x == Js.toFixedAbs d y)%Q.
Proof.
  intros H. unfold Js.toFixedAbs. cbv zeta. now rewrite H.
Qed.

Lemma toFixed_comp (d : nat) (x y : Q) :
  (x == y)%Q -> (Js.toFixed d x == Js.toFixed d y)%Q.
Proof.
  intros H. unfold Js.toFixed. rewrite <- H at 1.
  destruct (Qle_bool 0 x).
  - now apply toFixedAbs_comp.
  - apply Qopp_comp. apply toFixedAbs_comp. now rewrite H.
Qed.







(** A value with at most [d] decimals is rendered as it is. *)
Lemma toFixed_exact (d : nat) (k : Z) :
  (0 <= k)%Z ->
  (Js.toFixed d (inject_Z k / inject_Z (10 ^ Z.of_nat d))
   == inject_Z k / inject_Z (10 ^ Z.of_nat d))%Q.
Proof.
  intros Hk. pose proof (scale_pos d) as Hs.
  set (scale := inject_Z (10 ^ Z.of_nat d)) in *.
  assert (Hne : ~ (scale == 0)%Q).
  { intros E. rewrite E in Hs. discriminate Hs. }
  assert (H0 : (0 <= inject_Z k / scale)%Q).
  { apply Qle_shift_div_l; [exact Hs|].
    rewrite Qmult_0_l. change 0%Q with (inject_Z 0). now rewrite <- Zle_Qle. }
  unfold Js.toFixed. apply Qle_bool_iff in H0. rewrite H0.
  unfold Js.toFixedAbs. cbv zeta. fold scale.
  assert (E : (inject_Z k / scale * scale + (1 # 2) == inject_Z k + (1 # 2))%Q)
    by (field; exact Hne).
  rewrite E.
  assert (F : Qfloor (inject_Z k + (1 # 2)) = k).
  { unfold Qfloor, Qplus, inject_Z. simpl.
    Z.div_mod_to_equations. lia. }
  rewrite F. reflexivity.
Qed.

(** ** Sorting of table rows *)

Section SortFacts.

Context {A : Type} (key : A -> Z) (compare : A -> A -> Z).
Hypothesis compare_key : forall a b, compare a b = (key b - key a)%Z.

Lemma insertBy_perm (x : A) (l : list A) :
  Permutation (Js.insertBy compare x l) (x :: l).
Proof.
  induction l as [|y t IH]; simpl; [apply Permutation_refl|].
  destruct (compare x y <=? 0)%Z; [apply Permutation_refl|].
  apply perm_trans with (y :: x :: t); [now apply perm_skip | apply perm_swap].
Qed.

Lemma sort_perm (l : list A) : Permutation (Js.sort compare l) l.
Proof.
  induction l as [|x l IH]; simpl; [apply perm_nil|].
  apply perm_trans with (x :: Js.sort compare l);
    [apply insertBy_perm | now apply perm_skip].
Qed.

Lemma insertBy_sorted (x : A) (l : list A) :
  StronglySorted (fun a b => (key b <= key a)%Z) l ->
  StronglySorted (fun a b => (key b <= key a)%Z) (Js.insertBy compare x l).
Proof.
  induction l as [|y t IH]; intros Hs; simpl.
  - constructor; [constructor | constructor].
  - inversion Hs as [|? ? Ht Hy]; subst.
    destruct (compare x y <=? 0)%Z eqn:E.
    + apply Z.leb_le in E. rewrite compare_key in E.
      constructor; [exact Hs|].
      constructor; [lia|].
      eapply Forall_impl; [|exact Hy]. simpl. intros z Hz. lia.
    + apply Z.leb_gt in E. rewrite compare_key in E.
      constructor; [now apply IH|].
      apply Forall_forall. intros z Hz.
      apply (Permutation_in _ (insertBy_perm x t)) in Hz.
      destruct Hz as [<-|Hz]; [lia|].
      rewrite Forall_forall in Hy. now apply Hy.
Qed.

Lemma sort_sorted (l : list A) :
  StronglySorted (fun a b => (key b <= key a)%Z) (Js.sort compare l).
Proof.
  induction l as [|x l IH]; simpl; [constructor | now apply insertBy_sorted].
Qed.

Lemma sort_In (x : A) (l : list A) : In x (Js.sort compare l) <-> In x l.
Proof.
  split; apply Permutation_in;
    [apply sort_perm | apply Permutation_sym, sort_perm].
Qed.

End SortFacts.


(** ** The overs figure and the rows of the scorecard *)

Lemma oversOf_tenths (n : nat) :
  (DetailedScorecardModal.oversOf n
   == inject_Z (10 * Z.of_nat (Nat.div n 6) + Z.of_nat (Nat.modulo n 6))
      / inject_Z (10 ^ Z.of_nat 1))%Q.
Proof.
  unfold DetailedScorecardModal.oversOf.
  change (10 ^ Z.of_nat 1)%Z with 10%Z.
  rewrite inject_Z_plus, inject_Z_mult.
  change (inject_Z 10) with 10%Q. field.
Qed.

Lemma oversOf_positive (n : nat) :
  Qle_bool (DetailedScorecardModal.oversOf n) 0 = false <-> (0 < n)%nat.
Proof.
  rewrite <- not_true_iff_false, Qle_bool_iff, oversOf_tenths.
  change (10 ^ Z.of_nat 1)%Z with 10%Z.
  set (k := (10 * Z.of_nat (Nat.div n 6) + Z.of_nat (Nat.modulo n 6))%Z).
  assert (E : (inject_Z k / inject_Z 10 == k # 10)%Q)
    by (symmetry; apply Qmake_Qdiv).
  rewrite E. unfold Qle. simpl.
  pose proof (Nat.div_mod_eq n 6) as Hd.
  subst k. lia.
Qed.

Lemma toFixed_oversOf (n : nat) :
  (Js.toFixed 1 (DetailedScorecardModal.oversOf n)
   == DetailedScorecardModal.oversOf n)%Q.
Proof.
  rewrite (toFixed_comp 1 _ _ (oversOf_tenths n)), oversOf_tenths.
  apply toFixed_exact. lia.
Qed.

Lemma StronglySorted_weaken {A} (R R' : A -> A -> Prop) (l : list A) :
  (forall a b, R a b -> R' a b) -> StronglySorted R l -> StronglySorted R' l.
Proof.
  intros HR. induction 1 as [|a l Hs IH Ha]; constructor; [exact IH|].
  eapply Forall_impl; [|exact Ha]. intros b. apply HR.
Qed.

Lemma Detailed_ballsBowled_legal (m : Match) (p : Player) :
  DetailedScorecardModal.ballsBowled (DetailedScorecardModal.bowlingTotals m p)
  = legalBallsBowled m p.
Proof.
  destruct (Detailed_bowlingTotals_eq m p) as (_ & _ & Hb & _).
  cbv zeta in Hb. rewrite Hb. unfold legalBallsBowled.
  now rewrite filter_filter_andb.
Qed.

Lemma bowling_row_kept (m : Match) (p : Player) :
  negb (Qle_bool (DetailedScorecardModal.overs
                    (DetailedScorecardModal.calculateBowlingStats m p)) 0) = true
  <-> (0 < legalBallsBowled m p)%nat.
Proof.
  unfold DetailedScorecardModal.calculateBowlingStats.
  cbn [DetailedScorecardModal.overs].
  rewrite Detailed_ballsBowled_legal, toFixed_oversOf, negb_true_iff.
  apply oversOf_positive.
Qed.

(** X3: in the bowling list of the scorecard the overs figure of a bowler
    with [n] legal balls is exactly [floor(n/6) + (n mod 6)/10] (rounding to
    one decimal changes nothing); a player of either roster gets a row if and
    only if that player bowled at least one legal ball; and the rows come in
    descending order of wickets. *)
Theorem X3_scorecard_bowling_rows (m : Match) :
  (forall p,
      (DetailedScorecardModal.overs
         (DetailedScorecardModal.calculateBowlingStats m p)
       == DetailedScorecardModal.oversOf (legalBallsBowled m p))%Q)
  /\ (forall r,
        In r (DetailedScorecardModal.bowlingStats m)
        <-> exists p,
            In p (DetailedScorecardModal.allPlayers m)
            /\ r = DetailedScorecardModal.mkBowlingRow
                     p (DetailedScorecardModal.calculateBowlingStats m p)
            /\ (0 < legalBallsBowled m p)%nat)
  /\ StronglySorted
       (fun a b =>
          (DetailedScorecardModal.wicketsTaken
             (DetailedScorecardModal.bowlingFigures b)
           <= DetailedScorecardModal.wicketsTaken
                (DetailedScorecardModal.bowlingFigures a))%nat)
       (DetailedScorecardModal.bowlingStats m).
Proof.
  split; [|split].
  - intros p. unfold DetailedScorecardModal.calculateBowlingStats.
    cbn [DetailedScorecardModal.overs].
    rewrite Detailed_ballsBowled_legal. apply toFixed_oversOf.
  - intros r. unfold DetailedScorecardModal.bowlingStats.
    rewrite sort_In, filter_In, in_map_iff. split.
    + intros ((p & <- & Hp) & Hk). exists p.
      split; [exact Hp|]. split; [reflexivity|].
      now apply bowling_row_kept.
    + intros (p & Hp & -> & Hn). split; [now exists p|].
      now apply bowling_row_kept.
  - unfold DetailedScorecardModal.bowlingStats.
    eapply StronglySorted_weaken;
      [|apply (sort_sorted
                 (fun r => Z.of_nat (DetailedScorecardModal.wicketsTaken
                                       (DetailedScorecardModal.bowlingFigures r))));
        intros a b; reflexivity].
    simpl. intros a b H. lia.
Qed.

Lemma plainStep_fold_no_legal (l : list Ball) (a : Z) :
  length (filter legal l) = 0%nat -> fold_left plainStep l a = a.
Proof.
  revert a. induction l as [|b l IH]; intros a H; [reflexivity|].
  simpl in *. unfold plainStep at 2, plain. unfold legal in H at 1.
  destruct (negb (isWide b) && negb (isNoBall b)); simpl in *;
    [discriminate H | now apply IH].
Qed.

Lemma batting_row_kept (m : Match) (p : Player) :
  let t := DetailedScorecardModal.totals
             (DetailedScorecardModal.calculateBattingStats m p) in
  (0 <? DetailedScorecardModal.runs t)%Z
  || (0 <? DetailedScorecardModal.balls t)%nat = true
  <-> (0 < DetailedScorecardModal.balls t)%nat.
Proof.
  cbv zeta. destruct (Detailed_batting_eq m p) as (Hr & Hb & _).
  cbv zeta in Hr, Hb. rewrite Hr, Hb.
  rewrite orb_true_iff, Z.ltb_lt, Nat.ltb_lt. split; [|now right].
  intros [H|H]; [|exact H].
  destruct (CompactPlayerStats.ballsFaced
              (CompactPlayerStats.calculateBatsmanStats m p)) eqn:E; [|lia].
  exfalso. rewrite Compact_runs_eq in H.
  unfold CompactPlayerStats.calculateBatsmanStats in E.
  cbn [CompactPlayerStats.ballsFaced] in E.
  rewrite (plainStep_fold_no_legal _ 0%Z E) in H. lia.
Qed.

(** X4: in the batting list of the scorecard a player of either roster gets a
    row if and only if that player faced at least one delivery that is
    neither a wide nor a no-ball (the test on the runs adds nothing, since
    runs are only credited on such deliveries), the balls in the row are the
    legal deliveries faced, and the rows come in descending order of runs. *)
Theorem X4_scorecard_batting_rows (m : Match) :
  (forall r,
      In r (DetailedScorecardModal.battingStats m)
      <-> exists p,
          In p (DetailedScorecardModal.allPlayers m)
          /\ r = DetailedScorecardModal.mkBattingRow
                   p (DetailedScorecardModal.calculateBattingStats m p)
          /\ (0 < length (filter (fun b => sameId (striker b) p && legal b)
                                 (balls m)))%nat)
  /\ (forall p,
        DetailedScorecardModal.balls
          (DetailedScorecardModal.totals
             (DetailedScorecardModal.calculateBattingStats m p))
        = length (filter (fun b => sameId (striker b) p && legal b) (balls m)))
  /\ StronglySorted
       (fun a b =>
          (DetailedScorecardModal.runs
             (DetailedScorecardModal.totals
                (DetailedScorecardModal.battingFigures b))
           <= DetailedScorecardModal.runs
                (DetailedScorecardModal.totals
                   (DetailedScorecardModal.battingFigures a)))%Z)
       (DetailedScorecardModal.battingStats m).
Proof.
  assert (Hballs : forall p,
             DetailedScorecardModal.balls
               (DetailedScorecardModal.totals
                  (DetailedScorecardModal.calculateBattingStats m p))
             = length (filter (fun b => sameId (striker b) p && legal b)
                              (balls m))).
  { intros p. destruct (Detailed_batting_eq m p) as (_ & Hb & _).
    cbv zeta in Hb. rewrite Hb. apply Compact_ballsFaced_eq. }
  split; [|split; [exact Hballs|]].
  - intros r. unfold DetailedScorecardModal.battingStats.
    rewrite sort_In, filter_In, in_map_iff. split.
    + intros ((p & <- & Hp) & Hk). exists p.
      split; [exact Hp|]. split; [reflexivity|].
      rewrite <- Hballs. now apply (batting_row_kept m p).
    + intros (p & Hp & -> & Hn). split; [now exists p|].
      apply (batting_row_kept m p). cbv zeta. now rewrite Hballs.
  - unfold DetailedScorecardModal.battingStats.
    apply (sort_sorted
             (fun r => DetailedScorecardModal.runs
                         (DetailedScorecardModal.totals
                            (DetailedScorecardModal.battingFigures r)))).
    intros a b. reflexivity.
Qed.

(** ** The partnership list of the scorecard *)

Lemma entriesRuns_app (es fs : list DetailedScorecardModal.PartnershipEntry) :
  entriesRuns (es ++ fs) = (entriesRuns es + entriesRuns fs)%Z.
Proof. induction es as [|e es IH]; simpl; [reflexivity | rewrite IH; lia]. Qed.

Lemma entriesBalls_app (es fs : list DetailedScorecardModal.PartnershipEntry) :
  entriesBalls (es ++ fs) = (entriesBalls es + entriesBalls fs)%nat.
Proof. induction es as [|e es IH]; simpl; [reflexivity | rewrite IH; lia]. Qed.

Lemma sinceLastWicket_no_wicket (l : list Ball) :
  existsb isWicket l = false -> sinceLastWicket l = l.
Proof.
  destruct l as [|b t]; [reflexivity|]. simpl.
  intros H. apply orb_false_iff in H. destruct H as (Hb & Ht).
  now rewrite Ht, Hb.
Qed.

(** What the loop of getPartnerships has accumulated after a run of
    deliveries, from any state. *)
Lemma partnership_fold (l : list Delivery)
      (st : DetailedScorecardModal.PartnershipState) :
  let r := fold_left DetailedScorecardModal.partnershipStep l st in
  let cur := DetailedScorecardModal.current in
  let ps := DetailedScorecardModal.partnerships in
  (entriesRuns (ps r) + DetailedScorecardModal.partnershipRuns (cur r)
   = entriesRuns (ps st) + DetailedScorecardModal.partnershipRuns (cur st)
     + sumRuns (ledgerOf l))%Z
  /\ (entriesBalls (ps r) + DetailedScorecardModal.partnershipBalls (cur r)
      = entriesBalls (ps st) + DetailedScorecardModal.partnershipBalls (cur st)
        + length (filter legal (ledgerOf l)))%nat
  /\ (length (ps r)
      = length (ps st) + length (filter isWicket (ledgerOf l)))%nat
  /\ (DetailedScorecardModal.partnershipRuns (cur r)
      = (if existsb isWicket (ledgerOf l) then 0
         else DetailedScorecardModal.partnershipRuns (cur st))
        + sumRuns (sinceLastWicket (ledgerOf l)))%Z
  /\ (DetailedScorecardModal.partnershipBalls (cur r)
      = (if existsb isWicket (ledgerOf l) then 0
         else DetailedScorecardModal.partnershipBalls (cur st))
        + length (filter legal (sinceLastWicket (ledgerOf l))))%nat.
Proof.
  revert st. induction l as [|d t IH]; intros st.
  - unfold sumRuns. simpl. repeat split; lia.
  - simpl fold_left.
    destruct (IH (DetailedScorecardModal.partnershipStep st d))
      as (Hr & Hb & Hn & Hcr & Hcb).
    cbv zeta in *. rewrite Hr, Hb, Hn, Hcr, Hcb. clear IH Hr Hb Hn Hcr Hcb.
    unfold ledgerOf. simpl map. fold (ledgerOf t).
    rewrite sumRuns_cons. simpl filter. simpl existsb. simpl sinceLastWicket.
    destruct (existsb isWicket (ledgerOf t)) eqn:Et.
    + rewrite orb_true_r.
      unfold DetailedScorecardModal.partnershipStep.
      destruct (DetailedScorecardModal.nextIndex st =? 0)%nat, (legal (ball d)),
        (isWicket (ball d));
        simpl; rewrite ?entriesRuns_app, ?entriesBalls_app, ?length_app; simpl;
        repeat split; lia.
    + rewrite orb_false_r.
      rewrite (sinceLastWicket_no_wicket _ Et).
      unfold DetailedScorecardModal.partnershipStep.
      destruct (DetailedScorecardModal.nextIndex st =? 0)%nat,
        (legal (ball d)) eqn:El, (isWicket (ball d));
        simpl; rewrite ?El, ?sumRuns_cons, ?entriesRuns_app, ?entriesBalls_app,
                 ?length_app;
        simpl; repeat split; lia.
Qed.

Lemma partnershipLoop_spec (l : list Delivery) :
  let r := DetailedScorecardModal.partnershipLoop l in
  (entriesRuns (DetailedScorecardModal.partnerships r)
   + DetailedScorecardModal.partnershipRuns (DetailedScorecardModal.current r)
   = sumRuns (ledgerOf l))%Z
  /\ (entriesBalls (DetailedScorecardModal.partnerships r)
      + DetailedScorecardModal.partnershipBalls (DetailedScorecardModal.current r)
      = length (filter legal (ledgerOf l)))%nat
  /\ length (DetailedScorecardModal.partnerships r)
     = length (filter isWicket (ledgerOf l))
  /\ figuresOf (DetailedScorecardModal.current r)
     = partnershipPerSpec (ledgerOf l).
Proof.
  unfold DetailedScorecardModal.partnershipLoop.
  destruct (partnership_fold l
              (DetailedScorecardModal.mkPartnershipState
                 [] (DetailedScorecardModal.mkPartnershipEntry 0 0 []) None 0))
    as (Hr & Hb & Hn & Hcr & Hcb).
  cbv zeta in *. simpl in Hr, Hb, Hn, Hcr, Hcb.
  repeat split; try lia.
  unfold figuresOf, partnershipPerSpec, totalsOf. rewrite Hcr, Hcb.
  now destruct (existsb isWicket (ledgerOf l)).
Qed.

(** X5: the balls of the entries that getPartnerships returns add up to the
    legal deliveries of the ledger, whatever the ledger; the list has one
    entry per wicket delivery, plus one for the stretch after the last wicket
    when that stretch holds a legal delivery. *)
Theorem X5_partnership_list_balls_and_length (l : list Delivery)
        (teamPlayers : list Player) :
  entriesBalls (DetailedScorecardModal.getPartnerships l teamPlayers)
  = length (filter legal (ledgerOf l))
  /\ length (DetailedScorecardModal.getPartnerships l teamPlayers)
     = (length (filter isWicket (ledgerOf l))
        + (if (0 <? length (filter legal (sinceLastWicket (ledgerOf l))))%nat
           then 1 else 0))%nat.
Proof.
  destruct (partnershipLoop_spec l) as (_ & Hb & Hn & Hc).
  cbv zeta in *. unfold DetailedScorecardModal.getPartnerships.
  unfold figuresOf, partnershipPerSpec, totalsOf in Hc.
  injection Hc as _ Hcb. rewrite <- Hcb.
  destruct (0 <? DetailedScorecardModal.partnershipBalls _)%nat eqn:E.
  - rewrite entriesBalls_app, length_app. simpl. lia.
  - apply Nat.ltb_ge in E. lia.
Qed.

(** X6: the runs of the entries that getPartnerships returns add up to the
    runs of the ledger, except that the runs run after the last wicket are
    left out when no legal delivery has been bowled since (a stretch of wides
    and no-balls only). *)
Theorem X6_partnership_list_runs (l : list Delivery) (teamPlayers : list Player) :
  entriesRuns (DetailedScorecardModal.getPartnerships l teamPlayers)
  = (sumRuns (ledgerOf l)
     - (if (0 <? length (filter legal (sinceLastWicket (ledgerOf l))))%nat
        then 0 else sumRuns (sinceLastWicket (ledgerOf l))))%Z.
Proof.
  destruct (partnershipLoop_spec l) as (Hr & _ & _ & Hc).
  cbv zeta in *. unfold DetailedScorecardModal.getPartnerships.
  unfold figuresOf, partnershipPerSpec, totalsOf in Hc.
  injection Hc as Hcr Hcb. rewrite <- Hcb, <- Hcr.
  destruct (0 <? DetailedScorecardModal.partnershipBalls _)%nat.
  - rewrite entriesRuns_app. simpl. lia.
  - lia.
Qed.

Lemma lastWicketFrom_first (b : Ball) (t : list Ball) (from : Z) :
  lastWicketFrom from (b :: t) = Some from ->
  isWicket b = true /\ existsb isWicket t = false.
Proof.
  simpl. pose proof (lastWicketFrom_spec t (from + 1)) as Hs.
  destruct (lastWicketFrom (from + 1) t) as [i|].
  - destruct Hs as (Hi & _). intros E. injection E as ->. lia.
  - destruct Hs as (He & _). destruct (isWicket b); [now split | discriminate].
Qed.

(** X7: when the first delivery of the ledger is not its only wicket and
    ScoreDisplay has a partnership to show (at least one legal delivery in
    it), the last entry of the scorecard's partnership list carries the same
    runs and balls as ScoreDisplay's current partnership. *)
Theorem X7_last_entry_is_displayed_partnership (l : list Delivery)
        (teamPlayers : list Player) :
  (forall b t, ledgerOf l = b :: t -> isWicket b = true ->
               existsb isWicket t = true) ->
  (0 < ScoreDisplay.balls (ScoreDisplay.partnershipOf (ledgerOf l)))%nat ->
  exists closed e,
    DetailedScorecardModal.getPartnerships l teamPlayers = closed ++ [e]
    /\ figuresOf e = ScoreDisplay.partnershipOf (ledgerOf l).
Proof.
  intros Hfirst Hballs.
  assert (Hne : lastWicketFrom 0 (ledgerOf l) <> Some 0%Z).
  { intros E. destruct (ledgerOf l) as [|b t] eqn:El; [discriminate E|].
    destruct (lastWicketFrom_first b t 0 E) as (Hb & Ht).
    rewrite (Hfirst b t eq_refl Hb) in Ht. discriminate Ht. }
  rewrite (partnershipOf_agrees _ Hne) in *.
  destruct (partnershipLoop_spec l) as (_ & _ & _ & Hc). cbv zeta in Hc.
  exists (DetailedScorecardModal.partnerships
            (DetailedScorecardModal.partnershipLoop l)),
    (DetailedScorecardModal.current (DetailedScorecardModal.partnershipLoop l)).
  split; [|exact Hc].
  unfold DetailedScorecardModal.getPartnerships.
  rewrite <- Hc in Hballs. simpl in Hballs.
  apply Nat.ltb_lt in Hballs. now rewrite Hballs.
Qed.

Lemma X7_last_entry_is_displayed_partnership_witness :
  let l := map Sample.scored [Sample.single; Sample.bowledOut; Sample.four] in
  exists closed e,
    DetailedScorecardModal.getPartnerships l [] = closed ++ [e]
    /\ figuresOf e = ScoreDisplay.mkPartnership 4 1.
Proof.
  apply (X7_last_entry_is_displayed_partnership
           (map Sample.scored [Sample.single; Sample.bowledOut; Sample.four]) []).
  - intros b t E Hb. injection E as <- <-. reflexivity.
  - simpl. lia.
Defined.

(** ** Group statistics: which matches count *)

(** X8: calculatePlayerStats only looks at the matches that list the player
    on one of the two rosters; a match that lists the player on neither
    contributes nothing to any figure of that player, even when its
    deliveries name the player as striker or bowler. *)
Theorem X8_off_roster_match_ignored (ms1 ms2 : list Match) (m : Match)
        (p : Player) :
  GroupDashboard.onRoster (team1 m) p = false ->
  GroupDashboard.onRoster (team2 m) p = false ->
  GroupDashboard.statsOf (ms1 ++ m :: ms2) p
  = GroupDashboard.statsOf (ms1 ++ ms2) p.
Proof.
  intros H1 H2. unfold GroupDashboard.statsOf.
  assert (E : GroupDashboard.playerMatches (ms1 ++ m :: ms2) p
              = GroupDashboard.playerMatches (ms1 ++ ms2) p).
  { unfold GroupDashboard.playerMatches. rewrite !filter_app. simpl.
    now rewrite H1, H2. }
  now rewrite E.
Qed.

Lemma X8_off_roster_match_ignored_witness :
  sameId (striker Sample.four) Sample.asha = true
  /\ In Sample.four (balls Sample.strayMatch)
  /\ GroupDashboard.statsOf ([] ++ Sample.strayMatch :: []) Sample.asha
     = GroupDashboard.statsOf ([] ++ []) Sample.asha.
Proof.
  split; [reflexivity|]. split; [left; reflexivity|].
  apply (X8_off_roster_match_ignored [] [] Sample.strayMatch Sample.asha);
    reflexivity.
Defined.

(** ** Group statistics: totals over the roster matches *)

Lemma GroupDashboard_batting_fold (p : Player) (ms : list Match)
      (acc : GroupDashboard.BattingStats) :
  let r := fold_left (GroupDashboard.battingStep p) ms acc in
  let z := fold_left (GroupDashboard.battingStep p) ms
                     (GroupDashboard.mkBattingStats 0 0 0 0 0) in
  (0 <= GroupDashboard.highestScore acc)%Z ->
  GroupDashboard.runs r = (GroupDashboard.runs acc + GroupDashboard.runs z)%Z
  /\ GroupDashboard.balls r
     = (GroupDashboard.balls acc + GroupDashboard.balls z)%nat
  /\ GroupDashboard.fours r
     = (GroupDashboard.fours acc + GroupDashboard.fours z)%nat
  /\ GroupDashboard.sixes r
     = (GroupDashboard.sixes acc + GroupDashboard.sixes z)%nat
  /\ GroupDashboard.highestScore r
     = Z.max (GroupDashboard.highestScore acc) (GroupDashboard.highestScore z)
  /\ (0 <= GroupDashboard.highestScore z)%Z.
Proof.
  revert acc. induction ms as [|m ms IH]; intros acc; cbv zeta; intros Hacc.
  - simpl. repeat split; lia.
  - simpl fold_left.
    destruct (IH (GroupDashboard.battingStep p acc m)) as (Hr & Hb & Hf & Hs & Hh & Hz);
      [simpl; lia|].
    destruct (IH (GroupDashboard.battingStep p
                    (GroupDashboard.mkBattingStats 0 0 0 0 0) m))
      as (Hr0 & Hb0 & Hf0 & Hs0 & Hh0 & _); [simpl; lia|].
    cbv zeta in *. rewrite Hr, Hb, Hf, Hs, Hh, Hr0, Hb0, Hf0, Hs0, Hh0.
    simpl. repeat split; lia.
Qed.




Lemma maxRuns_spec (l : list Ball) :
  (0 <= GroupDashboard.maxRuns l)%Z
  /\ (forall b, In b l -> (Cricket.runs b <= GroupDashboard.maxRuns l)%Z)
  /\ (GroupDashboard.maxRuns l = 0%Z
      \/ exists b, In b l /\ Cricket.runs b = GroupDashboard.maxRuns l).
Proof.
  unfold GroupDashboard.maxRuns.
  induction l as [|a l (H0 & Hle & Hat)]; simpl.
  - split; [lia|]. split; [intros b []|now left].
  - split; [lia|]. split.
    + intros b [<-|Hb]; [lia|]. specialize (Hle b Hb). lia.
    + destruct (Z.max_spec (Cricket.runs a)
                  (fold_right Z.max 0%Z (map Cricket.runs l))) as [(Hlt & ->)|(Hge & ->)].
      * destruct Hat as [E|(b & Hb & E)]; [now left|].
        right. exists b. split; [now right | exact E].
      * right. exists a. split; [now left | reflexivity].
Qed.

Lemma GroupDashboard_batting_totals (p : Player) (ms : list Match) :
  let z := fold_left (GroupDashboard.battingStep p) ms
                     (GroupDashboard.mkBattingStats 0 0 0 0 0) in
  GroupDashboard.runs z
  = sumZ (map (fun m => LiveScoreboard.runs
                          (LiveScoreboard.calculateBatsmanStats m p)) ms)
  /\ GroupDashboard.balls z = deliveriesFaced ms p
  /\ GroupDashboard.fours z
     = list_sum (map (fun m => LiveScoreboard.fours
                                 (LiveScoreboard.calculateBatsmanStats m p)) ms)
  /\ GroupDashboard.sixes z
     = list_sum (map (fun m => LiveScoreboard.sixes
                                 (LiveScoreboard.calculateBatsmanStats m p)) ms)
  /\ (0 <= GroupDashboard.highestScore z)%Z
  /\ (forall m b, In m ms -> In b (balls m) -> sameId (striker b) p = true ->
                  (Cricket.runs b <= GroupDashboard.highestScore z)%Z)
  /\ (GroupDashboard.highestScore z = 0%Z
      \/ exists m b, In m ms /\ In b (balls m) /\ sameId (striker b) p = true
                     /\ Cricket.runs b = GroupDashboard.highestScore z).
Proof.
  induction ms as [|m ms IH]; cbv zeta.
  - simpl. repeat split; try lia; try reflexivity.
  - simpl fold_left.
    destruct (GroupDashboard_batting_fold p ms
                (GroupDashboard.battingStep p
                   (GroupDashboard.mkBattingStats 0 0 0 0 0) m))
      as (Hr & Hb & Hf & Hs & Hh & Hz); [simpl; lia|].
    cbv zeta in IH, Hr, Hb, Hf, Hs, Hh, Hz.
    destruct IH as (Ir & Ib & If & Is & I0 & Ile & Iat).
    rewrite Hr, Hb, Hf, Hs, Hh, Ir, Ib, If, Is.
    set (faced := filter (fun b => sameId (striker b) p) (balls m)).
    destruct (maxRuns_spec faced) as (M0 & Mle & Mat).
    set (hz := GroupDashboard.highestScore
                 (fold_left (GroupDashboard.battingStep p) ms
                            (GroupDashboard.mkBattingStats 0 0 0 0 0))) in *.
    simpl. fold faced.
    replace (Z.max 0 (GroupDashboard.maxRuns faced))
      with (GroupDashboard.maxRuns faced) by lia.
    unfold deliveriesFaced. simpl. fold faced.
    split; [reflexivity|]. split; [reflexivity|]. split; [reflexivity|].
    split; [reflexivity|]. split; [lia|]. split.
    + intros m' b [<-|Hm] Hb' Hp.
      * assert (Hin : In b faced) by (apply filter_In; now split).
        specialize (Mle b Hin). lia.
      * specialize (Ile m' b Hm Hb' Hp). lia.
    + destruct (Z.max_spec (GroupDashboard.maxRuns faced) hz)
        as [(Hlt & ->)|(Hge & ->)].
      * destruct Iat as [E|(m' & b & Hm & Hb' & Hp & E)]; [now left|].
        right. exists m', b. repeat split; trivial. now right.
      * destruct Mat as [E|(b & Hin & E)]; [now left|].
        apply filter_In in Hin. destruct Hin as (Hb' & Hp).
        right. exists m, b. repeat split; trivial. now left.
Qed.

(** X10: the highest score in calculatePlayerStats is the most runs on a
    single delivery faced in the roster matches, not an innings total: it is
    never negative, no delivery faced has more runs, and unless it is 0 some
    delivery faced has exactly that many runs. *)
Theorem X10_highest_score_is_per_delivery (ms : list Match) (p : Player) :
  let hs := GroupDashboard.highestScore
              (GroupDashboard.batting (GroupDashboard.statsOf ms p)) in
  (0 <= hs)%Z
  /\ (forall m b,
        In m (GroupDashboard.playerMatches ms p) -> In b (balls m) ->
        sameId (striker b) p = true -> (Cricket.runs b <= hs)%Z)
  /\ (hs = 0%Z
      \/ exists m b,
          In m (GroupDashboard.playerMatches ms p) /\ In b (balls m)
          /\ sameId (striker b) p = true /\ Cricket.runs b = hs).
Proof.
  cbv zeta. unfold GroupDashboard.statsOf. cbn [GroupDashboard.batting].
  destruct (GroupDashboard_batting_totals p (GroupDashboard.playerMatches ms p))
    as (_ & _ & _ & _ & H0 & Hle & Hat).
  cbv zeta in *. repeat split; assumption.
Qed.

(** X11: the fifties and hundreds of calculatePlayerStats are read off the
    aggregate runs: fifties is the number of whole fifties in the total and
    hundreds is half the fifties, rounded down. *)
Theorem X11_fifties_and_hundreds (ms : list Match) (p : Player) :
  let s := GroupDashboard.statsOf ms p in
  let total := GroupDashboard.runs (GroupDashboard.batting s) in
  (50 * GroupDashboard.fifties s <= total < 50 * GroupDashboard.fifties s + 50)%Z
  /\ GroupDashboard.hundreds s = (GroupDashboard.fifties s / 2)%Z.
Proof.
  cbv zeta. unfold GroupDashboard.statsOf.
  cbn [GroupDashboard.fifties GroupDashboard.hundreds GroupDashboard.batting].
  set (total := GroupDashboard.runs _).
  split.
  - pose proof (Z.div_mod total 50 ltac:(lia)) as Hd.
    pose proof (Z.mod_pos_bound total 50 ltac:(lia)) as Hb. lia.
  - rewrite Z.div_div by lia. reflexivity.
Qed.



(** ** The tables of the group dashboard *)




(** ** Who is marked out in the scorecard *)

Lemma Detailed_gotOut_fold (p : Player) (l : list Ball)
      (acc : DetailedScorecardModal.BattingAcc) :
  DetailedScorecardModal.gotOut
    (fold_left (DetailedScorecardModal.battingStep p) l acc)
  = DetailedScorecardModal.gotOut acc
    || existsb (fun b => isWicket b && sameId (striker b) p) l.
Proof.
  revert acc. induction l as [|b l IH]; intros acc; simpl.
  - now rewrite orb_false_r.
  - rewrite IH. unfold DetailedScorecardModal.battingStep.
    destruct (plain b), (legal b), (Cricket.runs b =? 4)%Z,
      (Cricket.runs b =? 6)%Z, (isWicket b && sameId (striker b) p);
      simpl; rewrite ?orb_true_r, ?orb_false_r; reflexivity.
Qed.

(** X14: calculateBattingStats marks a player as out exactly when the ledger
    holds a wicket delivery on which that player is the striker, whatever the
    dismissal kind; a wicket delivery faced by somebody else never marks the
    player. *)
Theorem X14_got_out (m : Match) (p : Player) :
  DetailedScorecardModal.gotOut
    (DetailedScorecardModal.totals
       (DetailedScorecardModal.calculateBattingStats m p)) = true
  <-> exists b, In b (balls m) /\ facedBy p b /\ isWicket b = true.
Proof.
  unfold DetailedScorecardModal.calculateBattingStats.
  cbn [DetailedScorecardModal.totals].
  unfold DetailedScorecardModal.battingTotals.
  rewrite Detailed_gotOut_fold. simpl. rewrite existsb_exists. split.
  - intros (b & Hin & Hb). apply filter_In in Hin. destruct Hin as (Hin & Hs).
    apply andb_true_iff in Hb. destruct Hb as (Hw & _).
    exists b. split; [exact Hin|]. split; [now apply sameId_true | exact Hw].
  - intros (b & Hin & Hf & Hw). exists b. apply sameId_true in Hf. split.
    + apply filter_In. now split.
    + now rewrite Hw, Hf.
Qed.

(** ** The economy of the scorecard against the live economy *)







(** ** Run rates of the score display *)







(** ** Deliveries of the other innings *)

(** X18: a delivery that does not belong to the innings in progress (innings
    2 during the first innings; anything but innings 2 during the second)
    changes nothing in the partnership that calculatePartnership shows,
    wherever it stands in the ledger. *)
Theorem X18_partnership_ignores_other_innings (m : Match) (l1 l2 : list Ball)
        (b : Ball) :
  (if isSecondInnings m then ScoreDisplay.secondInningsBall b
   else ScoreDisplay.firstInningsBall b) = false ->
  ScoreDisplay.calculatePartnership (withBalls m (l1 ++ b :: l2))
  = ScoreDisplay.calculatePartnership (withBalls m (l1 ++ l2)).
Proof.
  intros H. unfold ScoreDisplay.calculatePartnership. simpl.
  assert (E : ScoreDisplay.currentInningsBalls (withBalls m (l1 ++ b :: l2))
              = ScoreDisplay.currentInningsBalls (withBalls m (l1 ++ l2))).
  { unfold ScoreDisplay.currentInningsBalls. simpl.
    rewrite !filter_app. simpl.
    destruct (isSecondInnings m); simpl in *; now rewrite H. }
  now rewrite E.
Qed.

Lemma X18_partnership_ignores_other_innings_witness :
  ScoreDisplay.calculatePartnership
    (withBalls (Sample.matchOf []) ([Sample.single] ++ Sample.secondInningsFour :: []))
  = ScoreDisplay.calculatePartnership
      (withBalls (Sample.matchOf []) ([Sample.single] ++ [])).
Proof.
  apply (X18_partnership_ignores_other_innings
           (Sample.matchOf []) [Sample.single] [] Sample.secondInningsFour).
  reflexivity.
Defined.

(** ** LiveScoreboard's batsman line against CompactPlayerStats *)



